(** * bioconda_utils.anaconda: the [RepoData] package index

    A shallow embedding of [bioconda_utils/anaconda.py].  The pandas table
    is a list of rows under a list of column names, Python exceptions are
    an error monad, and the process state touched by the class (the
    singleton slot, the objects, the files, the requests sent) is threaded
    explicitly. *)

From stdpp Require Import gmap strings list fin_maps pretty.

Open Scope Z_scope.
Open Scope string_scope.

(** ** Exceptions *)

Inductive exn : Type :=
  | ValueError (msg : string)
  | TypeError (msg : string)
  | KeyError (key : string)
  | HTTPError (msg : string).

Inductive result (A : Type) : Type :=
  | Ok (a : A)
  | Err (e : exn).
Arguments Ok {A} a.
Arguments Err {A} e.

Definition rbind {A B} (r : result A) (k : A → result B) : result B :=
  match r with
  | Ok a => k a
  | Err e => Err e
  end.

Notation "'let*' x ':=' r 'in' k" := (rbind r (λ x, k))
  (at level 10, x name, r at level 100, k at level 200,
   format "'[' 'let*'  x  ':='  r  'in' ']' '//' k").

Definition is_ok {A} (r : result A) : bool :=
  match r with Ok _ => true | Err _ => false end.

(** ** Cells

    A cell of the table holds what the JSON documents hold in the fields
    that are loaded: an integer or a string; [NaN] is what pandas puts
    where a document has no value. *)

Inductive cell : Type :=
  | NaN
  | CInt (z : Z)
  | CStr (s : string).

#[global] Instance cell_eq_dec : EqDecision cell.
Proof. solve_decision. Defined.

Definition cell_enc (c : cell) : option (Z + string) :=
  match c with
  | NaN => None
  | CInt z => Some (inl z)
  | CStr s => Some (inr s)
  end.

Definition cell_dec (o : option (Z + string)) : cell :=
  match o with
  | None => NaN
  | Some (inl z) => CInt z
  | Some (inr s) => CStr s
  end.

#[global] Instance cell_countable : Countable cell.
Proof. apply (inj_countable' cell_enc cell_dec). by intros []. Defined.

(** Elementwise [==] of a column against a Python value: [NaN] equals
    nothing, itself included. *)
Definition cell_eqb (c v : cell) : bool :=
  match c, v with
  | CInt a, CInt b => bool_decide (a = b)
  | CStr a, CStr b => bool_decide (a = b)
  | _, _ => false
  end.

(** ** Data frames *)

Definition row : Type := cell * list cell.

Record DataFrame : Type := mkDataFrame {
  index_name : option string;
  columns : list string;
  rows : list row
}.

Fixpoint col_pos (cs : list string) (c : string) : option nat :=
  match cs with
  | [] => None
  | c' :: cs' => if bool_decide (c' = c) then Some 0%nat else S <$> col_pos cs' c
  end.

Definition cell_at (i : nat) (r : row) : cell := default NaN (r.2 !! i).

(** The value of row [r] in column [c] of a frame with columns [cs]. *)
Definition row_cell (cs : list string) (r : row) (c : string) : cell :=
  match col_pos cs c with
  | Some i => cell_at i r
  | None => NaN
  end.

(** [df[c]]: the values of one column, [KeyError] when there is none. *)
Definition getcol (df : DataFrame) (c : string) : result (list cell) :=
  match col_pos (columns df) c with
  | Some i => Ok (cell_at i <$> rows df)
  | None => Err (KeyError c)
  end.

(** [df[c] == v] *)
Definition mask_eq (df : DataFrame) (c : string) (v : cell) : result (list bool) :=
  let* xs := getcol df c in Ok ((λ x, cell_eqb x v) <$> xs).

(** [df[c].isin(vs)] *)
Definition mask_isin (df : DataFrame) (c : string) (vs : list cell) : result (list bool) :=
  let* xs := getcol df c in Ok ((λ x, existsb (cell_eqb x) vs) <$> xs).

(** [m1 & m2] *)
Definition mask_and (m1 m2 : list bool) : list bool := zip_with andb m1 m2.

Fixpoint keep_rows (rs : list row) (m : list bool) : list row :=
  match rs, m with
  | r :: rs', b :: m' => if b then r :: keep_rows rs' m' else keep_rows rs' m'
  | _, _ => []
  end.

(** [df[mask]] for a mask computed from [df] itself. *)
Definition boolean_index (df : DataFrame) (m : list bool) : DataFrame :=
  mkDataFrame (index_name df) (columns df) (keep_rows (rows df) m).

(** [df[[c1, ..., cn]]] *)
Definition select_columns (df : DataFrame) (cs : list string) : result DataFrame :=
  match mapM (M:=option) (col_pos (columns df)) cs with
  | Some ps =>
      Ok (mkDataFrame (index_name df) cs
            ((λ r : row, (r.1, (λ i, cell_at i r) <$> ps)) <$> rows df))
  | None => Err (KeyError "not in index")
  end.

(** ** Grouping *)

(** [groupby] on the keys of a list of (key, value) pairs; rows whose key
    is [NaN] belong to no group. *)
Fixpoint group_pairs (kvs : list (cell * cell)) : gmap cell (list cell) :=
  match kvs with
  | [] => ∅
  | (k, v) :: rest =>
      let m := group_pairs rest in
      match k with
      | NaN => m
      | _ => <[k := v :: default [] (m !! k)]> m
      end
  end.

(** [list(set(x))]: the distinct values, in the order of the set. *)
Definition list_set (x : list cell) : list cell :=
  elements (list_to_set x : gset cell).

(** ** Class constants *)

Definition REPODATA_URL (channel subdir : string) : string :=
  "https://conda.anaconda.org/" ++ channel ++ "/" ++ subdir ++ "/repodata.json".

Definition REPODATA_DEFAULTS_URL (channel subdir : string) : string :=
  "https://repo.anaconda.com/pkgs/main/" ++ subdir ++ "/repodata.json".

Definition _load_columns : list string :=
  ["build"; "build_number"; "name"; "version"].

Definition RepoData_columns : list string :=
  (_load_columns ++ ["channel"; "subdir"; "platform"])%list.

Definition platforms : list string := ["linux"; "osx"; "noarch"].

Definition channels : list string := ["conda-forge"; "bioconda"; "defaults"].

(** ** Read-only queries *)

Definition platform2subdir (platform : string) : result string :=
  if bool_decide (platform = "linux") then Ok "linux-64"
  else if bool_decide (platform = "osx") then Ok "osx-64"
  else if bool_decide (platform = "noarch") then Ok "noarch"
  else Err (ValueError
         "Unsupported platform: bioconda only supports linux, osx and noarch.").

(** [get_versions]: versions of a package, each with its platforms. *)
Definition get_versions (df : DataFrame) (name : string)
  : result (gmap cell (list cell)) :=
  let* m := mask_eq df "name" (CStr name) in
  let* packages := select_columns (boolean_index df m) ["version"; "platform"] in
  let* ks := getcol packages "version" in
  let* vs := getcol packages "platform" in
  let versions := list_set <$> group_pairs (zip ks vs) in
  Ok versions.

(** Python truth value of an optional argument: [None], the empty string
    and zero are false. *)
Definition truthy_str (o : option string) : bool :=
  match o with
  | Some s => negb (bool_decide (s = ""))
  | None => false
  end.

Definition truthy_int (o : option Z) : bool :=
  match o with
  | Some z => negb (bool_decide (z = 0))
  | None => false
  end.

(** [get_channels]: channels in which a package is available. *)
Definition get_channels (df : DataFrame) (name : string)
    (version : option string) (build_number : option Z)
  : result (gset cell) :=
  let* selection := mask_eq df "name" (CStr name) in
  let* selection :=
    (if truthy_str version then
       let* m := mask_eq df "version" (CStr (default "" version)) in
       Ok (mask_and selection m)
     else Ok selection) in
  let* selection :=
    (if truthy_int build_number then
       let* m := mask_eq df "build_number" (CInt (default 0 build_number)) in
       Ok (mask_and selection m)
     else Ok selection) in
  let packages := boolean_index df selection in
  let* cs := getcol packages "channel" in
  Ok (list_to_set cs).

(** ** Series *)

Record Series : Type := mkSeries {
  s_index_name : option string;
  s_items : list (cell * cell)
}.

(** [df[c]] kept with its index, as a Series. *)
Definition getseries (df : DataFrame) (c : string) : result Series :=
  let* xs := getcol df c in
  Ok (mkSeries (index_name df) (zip (fst <$> rows df) xs)).

(** [s.groupby(key)] for a string [key]: a Series has no columns, so the
    key can only name its index; anything else is a [KeyError]. *)
Definition series_groupby (s : Series) (key : string)
  : result (gmap cell (list cell)) :=
  if bool_decide (s_index_name s = Some key)
  then Ok (group_pairs (s_items s))
  else Err (KeyError key).

Fixpoint rmapM {A B} (f : A → result B) (l : list A) : result (list B) :=
  match l with
  | [] => Ok []
  | a :: l' =>
      let* b := f a in
      let* bs := rmapM f l' in
      Ok (b :: bs)
  end.

(** [groups.agg(f)] *)
Definition agg {B} (f : list cell → result B) (g : gmap cell (list cell))
  : result (gmap cell B) :=
  let* kvs := rmapM (λ kv : cell * list cell,
                       let* b := f kv.2 in Ok (kv.1, b)) (map_to_list g) in
  Ok (list_to_map kvs).

(** ** The general query's arguments *)

Inductive filter_val : Type :=
  | FStr (s : string)
  | FInt (z : Z)
  | FList (vs : list cell).

Inductive key_arg : Type :=
  | KStr (c : string)
  | KList (cs : list string).

Inductive package_data : Type :=
  | Flat (xs : list cell)
  | Tuples (ts : list (list cell)).

(** A call expression whose callee is a tuple, as in [(a, b)(c, d)]:
    tuples are not callable. *)
Definition call_tuple {A} (callee args : string * option filter_val) : result A :=
  Err (TypeError "'tuple' object is not callable").

(** The body of the loop over the filters. *)
Definition apply_filter (df : DataFrame) (f : string * option filter_val)
  : result DataFrame :=
  match f.2 with
  | None => Ok df
  | Some (FStr s) =>
      let* m := mask_eq df f.1 (CStr s) in Ok (boolean_index df m)
  | Some (FList vs) =>
      let* m := mask_isin df f.1 vs in Ok (boolean_index df m)
  | Some (FInt _) =>
      let* _ := getcol df f.1 in
      Err (TypeError "only list-like objects are allowed to be passed to isin()")
  end.

Fixpoint rfold {A B} (f : A → B → result A) (a : A) (l : list B) : result A :=
  match l with
  | [] => Ok a
  | b :: l' => let* a' := f a b in rfold f a' l'
  end.

Section Host.

(** [sys.platform] of the running interpreter. *)
Variable sys_platform : string.

(** [conda.exports.VersionOrder]: the constructor, which may reject its
    argument, and the order of the objects it builds. *)
Variable vorder : Type.
Variable VersionOrder : cell → result vorder.
Variable vo_lt : vorder → vorder → bool.

Definition native_platform : result string :=
  if String.prefix "linux" sys_platform then Ok "linux"
  else if String.prefix "darwin" sys_platform then Ok "osx"
  else Err (ValueError "Running on unsupported platform").

(** [max(VersionOrder(v) for v in x)] *)
Fixpoint max_from (cur : vorder) (x : list cell) : result vorder :=
  match x with
  | [] => Ok cur
  | v :: x' =>
      let* o := VersionOrder v in
      max_from (if vo_lt cur o then o else cur) x'
  end.

Definition max_vers (x : list cell) : result vorder :=
  match x with
  | [] => Err (ValueError "max() arg is an empty sequence")
  | v :: x' => let* o := VersionOrder v in max_from o x'
  end.

(** [get_latest_versions]: the body computes [vers] and ends; a Python
    function that ends without [return] gives [None]. *)
Definition get_latest_versions (df : DataFrame) (channel : string)
  : result (option (gmap cell vorder)) :=
  let* m := mask_eq df "channel" (CStr channel) in
  let* packages := getseries (boolean_index df m) "version" in
  let* groups := series_groupby packages "name" in
  let* vers := agg max_vers groups in
  Ok None.

(** [get_package_data] *)
Definition get_package_data (df : DataFrame) (key : key_arg)
    (channels name version build_number platform : option filter_val)
    (native : bool) : result package_data :=
  let* platform :=
    (if native then
       let* p := native_platform in
       Ok (Some (FList [CStr "noarch"; CStr p]))
     else Ok platform) in
  let* last := call_tuple ("build_number", build_number) ("platform", platform) in
  let filters :=
    [("name", name); ("channel", channels); ("version", version); last] in
  let* df := rfold apply_filter df filters in
  match key with
  | KStr k => let* xs := getcol df k in Ok (Flat xs)
  | KList ks => let* d := select_columns df ks in Ok (Tuples (snd <$> rows d))
  end.

End Host.

(** ** Building frames *)

(** [pd.DataFrame.from_dict(packages, 'index', columns=cols)]: one row per
    entry, labelled by its key, holding the listed fields of its block
    and nothing else. *)
Definition from_dict (packages : list (string * gmap string cell))
    (cols : list string) : DataFrame :=
  mkDataFrame None cols
    ((λ kb : string * gmap string cell,
        (CStr kb.1, (λ c, default NaN (kb.2 !! c)) <$> cols)) <$> packages).

(** [df[c] = v] for a scalar [v]. *)
Definition setitem (df : DataFrame) (c : string) (v : cell) : DataFrame :=
  match col_pos (columns df) c with
  | Some i =>
      mkDataFrame (index_name df) (columns df)
        ((λ r : row, (r.1, <[i := v]> r.2)) <$> rows df)
  | None =>
      mkDataFrame (index_name df) (columns df ++ [c])%list
        ((λ r : row, (r.1, (r.2 ++ [v])%list)) <$> rows df)
  end.

(** Columns of a concatenation: in the order of first appearance. *)
Definition union_columns (dfs : list DataFrame) : list string :=
  fold_left (λ acc d, (acc ++ filter (λ c, c ∉ acc) (columns d))%list) dfs [].

Definition reindex_columns (cs : list string) (df : DataFrame) : list row :=
  (λ r : row, (r.1, row_cell (columns df) r <$> cs)) <$> rows df.

Definition common_index_name (dfs : list DataFrame) : option string :=
  match dfs with
  | [] => None
  | d :: ds =>
      if forallb (λ d', bool_decide (index_name d' = index_name d)) ds
      then index_name d else None
  end.

(** [pd.concat(dfs)] *)
Definition pd_concat (dfs : list DataFrame) : result DataFrame :=
  match dfs with
  | [] => Err (ValueError "No objects to concatenate")
  | _ =>
      let cs := union_columns dfs in
      Ok (mkDataFrame (common_index_name dfs) cs (dfs ≫= reindex_columns cs))
  end.

(** ** Remote documents, files and the process state *)

(** A parsed [repodata.json]: the [info] object and the [packages]
    object, each absent when the document has no such key. *)
Record Repodata : Type := mkRepodata {
  info : option (gmap string cell);
  packages : option (list (string * gmap string cell))
}.

(** What [requests.get] returns; [json] is the outcome of [.json()]. *)
Record Response : Type := mkResponse {
  status_code : Z;
  reason : string;
  json : result Repodata
}.

(** A tab-delimited text file, as its grid of fields. *)
Record TabFile : Type := mkTabFile {
  header : list string;
  body : list (list string)
}.

(** A [RepoData] object: its [df] attribute, unset until assigned. *)
Record Instance : Type := mkInstance {
  df : option DataFrame
}.

Record World : Type := mkWorld {
  RepoData__instance : option nat;
  heap : list Instance;
  files : gmap string TabFile;
  requests : list string;
  stdout : list string
}.

Definition M (A : Type) : Type := World → result A * World.

Definition ret {A} (a : A) : M A := λ w, (Ok a, w).

Definition raise {A} (e : exn) : M A := λ w, (Err e, w).

Definition lift {A} (r : result A) : M A := λ w, (r, w).

Definition bindM {A B} (m : M A) (k : A → M B) : M B := λ w,
  match m w with
  | (Ok a, w') => k a w'
  | (Err e, w') => (Err e, w')
  end.

Notation "'let!' x ':=' m 'in' k" := (bindM m (λ x, k))
  (at level 10, x name, m at level 100, k at level 200,
   format "'[' 'let!'  x  ':='  m  'in' ']' '//' k").

Fixpoint for_each {A B} (l : list A) (f : A → M B) : M (list B) :=
  match l with
  | [] => ret []
  | a :: l' =>
      let! b := f a in
      let! bs := for_each l' f in
      ret (b :: bs)
  end.

Definition print (line : string) : M unit := λ w,
  (Ok (), mkWorld (RepoData__instance w) (heap w) (files w) (requests w)
            (stdout w ++ [line])%list).

Definition os_path_exists (path : string) : M bool := λ w,
  (Ok (bool_decide (is_Some (files w !! path))), w).

(** [self.df = d] *)
Definition set_df (self : nat) (d : DataFrame) : M unit := λ w,
  (Ok (), mkWorld (RepoData__instance w) (<[self := mkInstance (Some d)]> (heap w))
            (files w) (requests w) (stdout w)).

Definition write_file (path : string) (f : TabFile) : M unit := λ w,
  (Ok (), mkWorld (RepoData__instance w) (heap w) (<[path := f]> (files w))
            (requests w) (stdout w)).

(** [__new__]: makes [RepoData] a singleton. *)
Definition RepoData__new__ : M nat := λ w,
  match RepoData__instance w with
  | None =>
      let o := length (heap w) in
      (Ok o, mkWorld (Some o) (heap w ++ [mkInstance None])%list (files w)
               (requests w) (stdout w))
  | Some o => (Ok o, w)
  end.

(** ** The cache file *)

Definition render_cell (c : cell) : string :=
  match c with
  | NaN => ""
  | CInt z => pretty z
  | CStr s => s
  end.

(** [df.to_csv(path, sep='\t')]: a header naming the columns after an
    unlabeled index column, then one line per row, index label first. *)
Definition to_csv (d : DataFrame) : TabFile :=
  mkTabFile ("" :: columns d)
    ((λ r : row, render_cell r.1 :: (render_cell <$> r.2)) <$> rows d).

(** Names given to the header fields on reading: a blank one in position
    [i] is named [Unnamed: i]. *)
Definition header_names (h : list string) : list string :=
  imap (λ i s, if bool_decide (s = "") then "Unnamed: " ++ pretty i else s) h.

Definition col_texts (j : nat) (b : list (list string)) : list string :=
  (λ line, default "" (line !! j)) <$> b.

(** ['{0.status_code} {0.reason} for {1}'.format(repodata, url)] *)
Definition http_error_message (repodata : Response) (url : string) : string :=
  pretty (status_code repodata) ++ " " ++ reason repodata ++ " for " ++ url.

Section Process.

(** The remote side: what the [n]-th request of the process gets for a
    URL, a response or a transport error. *)
Variable remote : nat → string → result Response.

(** The type inference of the table reader: the values read from the
    texts of one column. *)
Variable infer_column : list string → list cell.

Definition requests_get (url : string) : M Response := λ w,
  (remote (length (requests w)) url,
   mkWorld (RepoData__instance w) (heap w) (files w)
     (requests w ++ [url])%list (stdout w)).

(** [fetch_repodata]: the parsed repodata of a channel and platform. *)
Definition fetch_repodata (channel platform : string) : M Repodata :=
  let url_template :=
    if bool_decide (channel = "defaults") then REPODATA_DEFAULTS_URL
    else REPODATA_URL in
  let! subdir := lift (platform2subdir platform) in
  let url := url_template channel subdir in
  let! repodata := requests_get url in
  if negb (bool_decide (status_code repodata = 200)) then
    raise (HTTPError (http_error_message repodata url))
  else lift (json repodata).

Definition getitem {A} (o : option A) (key : string) : result A :=
  match o with
  | Some a => Ok a
  | None => Err (KeyError key)
  end.

(** The body of the loops of [__init__] for one channel and platform. *)
Definition load_pair (channel platform : string) : M DataFrame :=
  let! _ := print ("loading " ++ channel ++ "/" ++ platform) in
  let! repo := fetch_repodata channel platform in
  let! pk := lift (getitem (packages repo) "packages") in
  let d := from_dict pk _load_columns in
  let d := setitem d "channel" (CStr channel) in
  let d := setitem d "platform" (CStr platform) in
  let! i := lift (getitem (info repo) "info") in
  let! s := lift (getitem (i !! "subdir") "subdir") in
  let d := setitem d "subdir" s in
  ret d.

(** [pd.read_table(path)]: every header field names a column, the
    first one included, and the rows are numbered from zero. *)
Definition parse_table (f : TabFile) : DataFrame :=
  let cols := (λ j, infer_column (col_texts j (body f)))
                <$> seq 0 (length (header f)) in
  mkDataFrame None (header_names (header f))
    ((λ i : nat, (CInt (Z.of_nat i),
                  (λ col : list cell, default NaN (col !! i)) <$> cols))
       <$> seq 0 (length (body f))).

Definition read_table (path : string) : M DataFrame := λ w,
  match files w !! path with
  | Some f => (Ok (parse_table f), w)
  | None => (Err (ValueError "No such file or directory"), w)
  end.

(** The loops of [__init__]: the frames of every channel and platform,
    in the order in which they are appended to [dfs]. *)
Definition load_all : M (list DataFrame) :=
  let! dfs := for_each channels (λ channel,
                for_each platforms (λ platform,
                  load_pair channel platform)) in
  ret (concat dfs).

(** [__init__] *)
Definition RepoData__init__ (self : nat) (cache : option string) : M unit :=
  let! cached :=
    (match cache with
     | Some path => os_path_exists path
     | None => ret false
     end) in
  if cached then
    let! d := read_table (default "" cache) in
    set_df self d
  else
    let! dfs := load_all in
    let! d := lift (pd_concat dfs) in
    let! _ := set_df self d in
    match cache with
    | Some path => write_file path (to_csv d)
    | None => ret ()
    end.

(** The call [RepoData(...)]: Python passes the arguments of the call to
    [__new__], which takes none, and then to [__init__] on the object
    that [__new__] returned.  [None] stands for a call without
    arguments, [Some c] for a call with the one argument [c]. *)
Definition RepoData (args : option (option string)) : M nat :=
  let! self :=
    (match args with
     | None => RepoData__new__
     | Some _ =>
         raise (TypeError
                  "__new__() takes 1 positional argument but 2 were given")
     end) in
  let! _ := RepoData__init__ self (default None args) in
  ret self.

End Process.

(** ** Sample data *)

Definition mk_row (label build : string) (build_number : Z)
    (name version channel platform subdir : string) : row :=
  (CStr label,
   [CStr build; CInt build_number; CStr name; CStr version;
    CStr channel; CStr platform; CStr subdir]).

Definition table_columns : list string :=
  ["build"; "build_number"; "name"; "version"; "channel"; "platform"; "subdir"].

(** Package [p] with build 0 in channel [a] and build 1 in channel [b]. *)
Definition df_builds : DataFrame :=
  mkDataFrame None table_columns
    [mk_row "p-1.0-0.tar.bz2" "0" 0 "p" "1.0" "a" "linux" "linux-64";
     mk_row "p-1.0-1.tar.bz2" "1" 1 "p" "1.0" "b" "linux" "linux-64"].

(** Package [p] with versions 1.9, 1.10 and 2.0 in channel [c]. *)
Definition df_versions : DataFrame :=
  mkDataFrame None table_columns
    [mk_row "p-1.9-0.tar.bz2" "0" 0 "p" "1.9" "c" "linux" "linux-64";
     mk_row "p-1.10-0.tar.bz2" "0" 0 "p" "1.10" "c" "linux" "linux-64";
     mk_row "p-2.0-0.tar.bz2" "0" 0 "p" "2.0" "c" "linux" "linux-64"].

(** ** The queries as the specification words them *)

(** Channels of the rows that match the name and every constraint that is
    provided, zero and the empty string included. *)
Definition spec_row_matches (df : DataFrame) (name : string)
    (version : option string) (build_number : option Z) (r : row) : bool :=
  bool_decide (row_cell (columns df) r "name" = CStr name)
  && match version with
     | Some v => bool_decide (row_cell (columns df) r "version" = CStr v)
     | None => true
     end
  && match build_number with
     | Some b => bool_decide (row_cell (columns df) r "build_number" = CInt b)
     | None => true
     end.

Definition spec_get_channels (df : DataFrame) (name : string)
    (version : option string) (build_number : option Z) : gset cell :=
  list_to_set
    ((λ r, row_cell (columns df) r "channel") <$>
     filter (λ r, spec_row_matches df name version build_number r) (rows df)).


(** Every row has one cell per column. *)
Definition well_formed (d : DataFrame) : Prop :=
  Forall (λ r : row, length r.2 = length (columns d)) (rows d).


(** ** A sample host: version order, reader and remote side *)

Definition digit_value (a : Ascii.ascii) : option N :=
  let n := Ascii.N_of_ascii a in
  if ((48 <=? n) && (n <=? 57))%N then Some (n - 48)%N else None.

Fixpoint digits_value (s : string) (acc : N) : option N :=
  match s with
  | EmptyString => Some acc
  | String a s' =>
      match digit_value a with
      | Some d => digits_value s' (10 * acc + d)%N
      | None => None
      end
  end.

Definition number_value (s : string) : option N :=
  match s with
  | EmptyString => None
  | _ => digits_value s 0%N
  end.

(** The fields of [s] between the dots, last field in [cur]. *)
Fixpoint split_dots (s : string) (cur : string) : list string :=
  match s with
  | EmptyString => [String.rev cur]
  | String a s' =>
      if bool_decide (String a "" = ".") then String.rev cur :: split_dots s' ""
      else split_dots s' (String a cur)
  end.

Fixpoint parts_lt (a b : list N) : bool :=
  match a, b with
  | [], [] => false
  | [], _ :: _ => true
  | _ :: _, [] => false
  | x :: a', y :: b' => if (x <? y)%N then true
                        else if (y <? x)%N then false else parts_lt a' b'
  end.

(** A version order for dotted numbers: the numbers compared in turn. *)
Definition dotted_VersionOrder (c : cell) : result (list N) :=
  match c with
  | CStr s =>
      match mapM (M:=option) number_value (split_dots s "") with
      | Some l => Ok l
      | None => Err (ValueError "Malformed version string")
      end
  | _ => Err (TypeError "expected string")
  end.

(** A reader that makes a column of numbers when every text of it is one,
    and otherwise keeps the texts, blank ones as [NaN]. *)
Definition infer_simple (texts : list string) : list cell :=
  match mapM (M:=option) number_value texts with
  | Some ns => (λ n, CInt (Z.of_N n)) <$> ns
  | None => (λ s, if bool_decide (s = "") then NaN else CStr s) <$> texts
  end.

(** The document every sample request gets: one build of package [p],
    whose block names a platform of its own, in subdirectory [linux-32]. *)
Definition sample_repodata : Repodata :=
  mkRepodata
    (Some {[ "subdir" := CStr "linux-32" ]})
    (Some [("p-1.0-0.tar.bz2",
            {[ "build" := CStr "py_0"; "build_number" := CInt 0;
               "name" := CStr "p"; "version" := CStr "1.0";
               "platform" := CStr "win"; "channel" := CStr "elsewhere" ]})]).

Definition remote_ok (n : nat) (url : string) : result Response :=
  Ok (mkResponse 200 "OK" (Ok sample_repodata)).

Definition remote_404 (n : nat) (url : string) : result Response :=
  Ok (mkResponse 404 "Not Found" (Err (ValueError "Expecting value"))).


(** A process that has done nothing yet, with the given files. *)
Definition start (fs : gmap string TabFile) : World :=
  mkWorld None [] fs [] [].


(** ** Properties of computations *)

(** [m] sends requests only, and a response to one of them that is not a
    200 is what [m] raises. *)
Definition surfaces_http_errors {A}
    (remote : nat → string → result Response) (m : M A) : Prop :=
  ∀ w, ∃ urls,
    requests (m w).2 = (requests w ++ urls)%list
    ∧ ∀ i url resp,
        urls !! i = Some url →
        remote (length (requests w) + i)%nat url = Ok resp →
        status_code resp ≠ 200 →
        (m w).1 = Err (HTTPError (http_error_message resp url)).

(** [m] leaves the singleton slot, the objects and the files alone. *)
Definition quiet {A} (m : M A) : Prop :=
  ∀ w, RepoData__instance (m w).2 = RepoData__instance w
       ∧ heap (m w).2 = heap w
       ∧ files (m w).2 = files w.

(** The URL that [fetch_repodata] resolves for a channel and a
    subdirectory. *)
Definition resolved_url (channel subdir : string) : string :=
  (if bool_decide (channel = "defaults") then REPODATA_DEFAULTS_URL
   else REPODATA_URL) channel subdir.

(** The URL of the first pair of the loops of [__init__]. *)
Definition first_url : string := resolved_url "conda-forge" "linux-64".

(** Whatever else [m] does, it first requests [url]. *)
Definition starts_with {A} (url : string) (m : M A) : Prop :=
  ∀ w, ∃ rest, requests (m w).2 = (requests w ++ url :: rest)%list.

(** The object that [__new__] returns in [w]: the one in the singleton
    slot, or a new one after the objects there are. *)
Definition the_instance (w : World) : nat :=
  default (length (heap w)) (RepoData__instance w).

(** The row made of one entry of a document's [packages] for a channel
    and a platform, with the subdirectory [s] of the document's [info]. *)
Definition stamped_row (channel platform : string) (s : cell)
    (kb : string * gmap string cell) : row :=
  (CStr kb.1,
   [default NaN (kb.2 !! "build"); default NaN (kb.2 !! "build_number");
    default NaN (kb.2 !! "name"); default NaN (kb.2 !! "version");
    CStr channel; CStr platform; s]).




(** The shape of every frame of the build. *)
Definition table_shaped (d : DataFrame) : Prop :=
  columns d = table_columns ∧ well_formed d.




(** A process after a first call [RepoData()] against the sample remote
    side. *)
Definition sample_first_call : World :=
  (RepoData remote_ok infer_simple None (start ∅)).2.

Definition not_found : Response :=
  mkResponse 404 "Not Found" (Err (ValueError "Expecting value")).

(** The subdirectory of a configured platform. *)
Definition subdir_of (platform : string) : string :=
  match platform2subdir platform with
  | Ok s => s
  | Err _ => ""
  end.

(** The URLs of a whole build, in the order of the loops. *)
Definition build_urls : list string :=
  channel ← channels; platform ← platforms;
  [resolved_url channel (subdir_of platform)].

(** [m] sends a first part of [us] and nothing else, all of [us] when it
    succeeds. *)
Definition sends_prefix_of {A} (us : list string) (m : M A) : Prop :=
  ∀ w, ∃ sent,
    requests (m w).2 = (requests w ++ sent)%list
    ∧ sent `prefix_of` us
    ∧ (is_ok (m w).1 = true → sent = us).

(** The singleton slot refers to an object that exists. *)
Definition slot_ok (w : World) : Prop :=
  ∀ o, RepoData__instance w = Some o → (o < length (heap w))%nat.

(** The rows of [d] carry a configured channel and platform. *)
Definition rows_stamped (d : DataFrame) : Prop :=
  ∀ r, r ∈ rows d →
    ∃ channel platform,
      channel ∈ channels ∧ platform ∈ platforms
      ∧ row_cell table_columns r "channel" = CStr channel
      ∧ row_cell table_columns r "platform" = CStr platform.

(** * Properties *)

Example split_dots_ex : split_dots "1.10" "" = ["1"; "10"].
Proof. reflexivity. Qed.
(** ** Lemmas on frames *)

Lemma cell_eqb_true c v : cell_eqb c v = true ↔ (c = v ∧ c ≠ NaN).
Proof.
  destruct c, v; simpl; rewrite ?bool_decide_eq_true;
    (split; [intros E; try discriminate E; by subst
            |intros [E N]; try discriminate E; try (by destruct N); congruence]).
Qed.

Lemma cell_eqb_str c s : cell_eqb c (CStr s) = true ↔ c = CStr s.
Proof.
  rewrite cell_eqb_true. split; [by intros [? _]|]. by intros ->.
Qed.

Lemma cell_eqb_int c z : cell_eqb c (CInt z) = true ↔ c = CInt z.
Proof.
  rewrite cell_eqb_true. split; [by intros [? _]|]. by intros ->.
Qed.

Lemma cell_eqb_str_decide c s : cell_eqb c (CStr s) = bool_decide (c = CStr s).
Proof.
  destruct (cell_eqb c (CStr s)) eqn:E.
  - apply cell_eqb_str in E. by rewrite bool_decide_eq_true_2.
  - rewrite bool_decide_eq_false_2; [done|]. intros H%cell_eqb_str. congruence.
Qed.

Lemma cell_eqb_int_decide c z : cell_eqb c (CInt z) = bool_decide (c = CInt z).
Proof.
  destruct (cell_eqb c (CInt z)) eqn:E.
  - apply cell_eqb_int in E. by rewrite bool_decide_eq_true_2.
  - rewrite bool_decide_eq_false_2; [done|]. intros H%cell_eqb_int. congruence.
Qed.

Lemma col_pos_is_Some cs c : c ∈ cs → is_Some (col_pos cs c).
Proof.
  induction cs as [|c' cs IH]; simpl; [by intros ?%elem_of_nil|].
  intros Hin. case_bool_decide; [by eexists|].
  apply elem_of_cons in Hin as [->|Hin]; [done|].
  destruct (IH Hin) as [i ->]. by eexists.
Qed.

Lemma col_pos_None cs c : c ∉ cs → col_pos cs c = None.
Proof.
  induction cs as [|c' cs IH]; simpl; [done|].
  intros Hin. apply not_elem_of_cons in Hin as [Hne Hin].
  rewrite bool_decide_eq_false_2; [|done]. by rewrite IH.
Qed.

Lemma keep_rows_fmap (p : row → bool) rs :
  keep_rows rs (p <$> rs) = filter (λ r, p r) rs.
Proof.
  induction rs as [|r rs IH]; csimpl; [done|].
  rewrite IH, filter_cons. by destruct (p r).
Qed.

Lemma mask_and_fmap {A} (p q : A → bool) (l : list A) :
  mask_and (p <$> l) (q <$> l) = (λ a, p a && q a) <$> l.
Proof.
  unfold mask_and. induction l as [|a l IH]; csimpl; [done|]. by rewrite IH.
Qed.

Lemma getcol_Some df c i :
  col_pos (columns df) c = Some i → getcol df c = Ok (cell_at i <$> rows df).
Proof. unfold getcol. by intros ->. Qed.

Lemma mask_eq_Some df c i v :
  col_pos (columns df) c = Some i →
  mask_eq df c v = Ok ((λ r, cell_eqb (cell_at i r) v) <$> rows df).
Proof.
  intros H. unfold mask_eq. rewrite (getcol_Some _ _ _ H). simpl.
  by rewrite <- list_fmap_compose.
Qed.

Lemma row_cell_pos cs r c i : col_pos cs c = Some i → row_cell cs r c = cell_at i r.
Proof. unfold row_cell. by intros ->. Qed.

Lemma keep_rows_none (p : row → bool) rs :
  (∀ r, r ∈ rs → p r = false) → keep_rows rs (p <$> rs) = [].
Proof.
  intros H. rewrite keep_rows_fmap.
  induction rs as [|r rs IH]; [done|].
  rewrite filter_cons, (H r) by apply list_elem_of_here. simpl.
  apply IH. intros r' Hr'. apply H. by apply list_elem_of_further.
Qed.

Lemma table_has_columns df c :
  RepoData_columns ⊆ columns df → c ∈ RepoData_columns →
  is_Some (col_pos (columns df) c).
Proof. intros Hsub Hc. apply col_pos_is_Some. by apply Hsub. Qed.

(** ** Queries for a name that is not in the table *)

(** C10: for a package name that occurs in no row of the table,
    [get_versions] returns the empty mapping and [get_channels], without
    version and build number, the empty set; neither raises. *)
Theorem absent_name_empty_results (df : DataFrame) (name : string) :
  RepoData_columns ⊆ columns df →
  (∀ r, r ∈ rows df → row_cell (columns df) r "name" ≠ CStr name) →
  get_versions df name = Ok ∅ ∧ get_channels df name None None = Ok ∅.
Proof.
  intros Hcols Habs.
  destruct (table_has_columns df "name" Hcols) as [i Hi];
    [unfold RepoData_columns, _load_columns; set_solver|].
  destruct (table_has_columns df "version" Hcols) as [j Hj];
    [unfold RepoData_columns, _load_columns; set_solver|].
  destruct (table_has_columns df "platform" Hcols) as [k Hk];
    [unfold RepoData_columns, _load_columns; set_solver|].
  destruct (table_has_columns df "channel" Hcols) as [l Hl];
    [unfold RepoData_columns, _load_columns; set_solver|].
  assert (Hnone : keep_rows (rows df)
            ((λ r, cell_eqb (cell_at i r) (CStr name)) <$> rows df) = []).
  { apply keep_rows_none. intros r Hr.
    apply not_true_is_false. intros E%cell_eqb_str.
    apply (Habs r Hr). by rewrite (row_cell_pos _ _ _ _ Hi). }
  split.
  - unfold get_versions. rewrite (mask_eq_Some _ _ _ _ Hi). simpl.
    unfold select_columns, boolean_index. simpl. rewrite Hj, Hk. simpl.
    rewrite Hnone. simpl. by rewrite fmap_empty.
  - unfold get_channels. rewrite (mask_eq_Some _ _ _ _ Hi). simpl.
    unfold getcol, boolean_index. simpl. rewrite Hl, Hnone. done.
Qed.

(** ** [get_channels] against the specification's wording *)

Lemma get_channels_unfold df name version build_number i j k l :
  col_pos (columns df) "name" = Some i →
  col_pos (columns df) "version" = Some j →
  col_pos (columns df) "build_number" = Some k →
  col_pos (columns df) "channel" = Some l →
  get_channels df name version build_number =
  Ok (list_to_set (cell_at l <$>
        filter (λ r,
          cell_eqb (cell_at i r) (CStr name)
          && (if truthy_str version
              then cell_eqb (cell_at j r) (CStr (default "" version)) else true)
          && (if truthy_int build_number
              then cell_eqb (cell_at k r) (CInt (default 0 build_number)) else true))
        (rows df))).
Proof.
  intros Hi Hj Hk Hl. unfold get_channels.
  rewrite (mask_eq_Some _ _ _ _ Hi). simpl.
  rewrite (mask_eq_Some _ _ _ _ Hj), (mask_eq_Some _ _ _ _ Hk).
  unfold getcol, boolean_index. simpl. rewrite Hl.
  destruct (truthy_str version), (truthy_int build_number); simpl;
    rewrite ?mask_and_fmap, keep_rows_fmap; do 3 f_equal;
    apply list_filter_iff; intros r; by rewrite ?andb_true_r.
Qed.

(** X2: on a table that has the columns of the class, where the version
    given is not the empty string and the build number given is not zero,
    [get_channels] returns the channels of exactly the rows that match
    the name and every constraint given. *)
Lemma get_channels_spec df name version build_number :
  RepoData_columns ⊆ columns df →
  version ≠ Some "" → build_number ≠ Some 0 →
  get_channels df name version build_number
  = Ok (spec_get_channels df name version build_number).
Proof.
  intros Hcols Hv Hb.
  destruct (table_has_columns df "name" Hcols) as [i Hi];
    [unfold RepoData_columns, _load_columns; set_solver|].
  destruct (table_has_columns df "version" Hcols) as [j Hj];
    [unfold RepoData_columns, _load_columns; set_solver|].
  destruct (table_has_columns df "build_number" Hcols) as [k Hk];
    [unfold RepoData_columns, _load_columns; set_solver|].
  destruct (table_has_columns df "channel" Hcols) as [l Hl];
    [unfold RepoData_columns, _load_columns; set_solver|].
  rewrite (get_channels_unfold _ _ _ _ _ _ _ _ Hi Hj Hk Hl).
  unfold spec_get_channels. do 2 f_equal.
  transitivity (cell_at l <$>
    filter (λ r, spec_row_matches df name version build_number r) (rows df)).
  2:{ apply list_fmap_ext. intros _ r _. by rewrite (row_cell_pos _ _ _ _ Hl). }
  f_equal. apply list_filter_iff. intros r. unfold spec_row_matches.
  rewrite (row_cell_pos _ _ _ _ Hi), (row_cell_pos _ _ _ _ Hj),
    (row_cell_pos _ _ _ _ Hk).
  rewrite <- !cell_eqb_str_decide.
  assert (Hver : (if truthy_str version
            then cell_eqb (cell_at j r) (CStr (default "" version)) else true)
          = match version with
            | Some v => bool_decide (cell_at j r = CStr v)
            | None => true
            end).
  { destruct version as [v|]; simpl; [|done].
    rewrite bool_decide_eq_false_2 by congruence. simpl.
    by rewrite <- cell_eqb_str_decide. }
  assert (Hbn : (if truthy_int build_number
            then cell_eqb (cell_at k r) (CInt (default 0 build_number)) else true)
          = match build_number with
            | Some b => bool_decide (cell_at k r = CInt b)
            | None => true
            end).
  { destruct build_number as [b|]; simpl; [|done].
    rewrite bool_decide_eq_false_2 by congruence. simpl.
    by rewrite <- cell_eqb_int_decide. }
  by rewrite Hver, Hbn.
Qed.

(** C6, at a build number of zero: [p] has build 0 in channel [a] and
    build 1 in channel [b]; asked for build 0, [get_channels] answers
    both channels, where exact equality on the build number leaves [a]
    alone. *)
Theorem get_channels_build_number_zero :
  get_channels df_builds "p" None (Some 0) = Ok {[CStr "a"; CStr "b"]}
  ∧ spec_get_channels df_builds "p" None (Some 0) = {[CStr "a"]}
  ∧ get_channels df_builds "p" None (Some 0)
    ≠ Ok (spec_get_channels df_builds "p" None (Some 0)).
Proof.
  assert (H1 : get_channels df_builds "p" None (Some 0)
               = Ok (list_to_set [CStr "a"; CStr "b"])) by reflexivity.
  assert (H2 : spec_get_channels df_builds "p" None (Some 0)
               = list_to_set [CStr "a"]) by reflexivity.
  rewrite H1, H2. split; [|split].
  - by f_equal.
  - set_solver.
  - by intros [= E].
Qed.

(** A table that has the columns of the class and no row named [q]. *)
Lemma absent_name_empty_results_witness :
  get_versions df_builds "q" = Ok ∅
  ∧ get_channels df_builds "q" None None = Ok ∅.
Proof.
  apply absent_name_empty_results.
  - intros c Hc. vm_compute in Hc. vm_compute. set_solver.
  - intros r Hr. vm_compute in Hr.
    repeat (apply elem_of_cons in Hr as [->|Hr]; [by vm_compute|]).
    by apply elem_of_nil in Hr.
Defined.

(** ** The latest-version query *)

Section LatestVersions.

Context {vorder : Type}.
Variable VersionOrder : cell → result vorder.
Variable vo_lt : vorder → vorder → bool.

(** C1: whatever the table and the channel, [get_latest_versions]
    hands no mapping back: it raises, or it computes the grouped
    maxima and returns [None]. *)
Theorem get_latest_versions_returns_no_mapping (df : DataFrame)
    (channel : string) (m : gmap cell vorder) :
  get_latest_versions vorder VersionOrder vo_lt df channel ≠ Ok (Some m).
Proof.
  unfold get_latest_versions.
  destruct (mask_eq df "channel" (CStr channel)) as [mask|]; simpl; [|done].
  destruct (getseries _ "version") as [packages|]; simpl; [|done].
  destruct (series_groupby packages "name") as [groups|]; simpl; [|done].
  by destruct (agg (max_vers vorder VersionOrder vo_lt) groups).
Qed.

End LatestVersions.

(** With versions 1.9, 1.10 and 2.0 of one package in channel [c]: the
    grouping key is not in the selected column and the query raises; were
    the index of the table named [name], the maxima would be computed and
    dropped. *)
Example get_latest_versions_sample :
  get_latest_versions _ dotted_VersionOrder parts_lt df_versions "c"
  = Err (KeyError "name")
  ∧ get_latest_versions _ dotted_VersionOrder parts_lt
      (mkDataFrame (Some "name") (columns df_versions) (rows df_versions)) "c"
    = Ok None
  ∧ max_vers _ dotted_VersionOrder parts_lt [CStr "1.9"; CStr "1.10"; CStr "2.0"]
    = Ok [2; 0]%N.
Proof. repeat split; reflexivity. Qed.

(** ** The general query *)

(** C2: every call of [get_package_data] raises: building the tuple of
    filters calls a tuple, which is a [TypeError], unless the native
    platform was asked for on an unsupported host, which is a
    [ValueError] before that.  No projection is ever returned. *)
Theorem get_package_data_always_raises (sys_platform : string)
    (df : DataFrame) (key : key_arg)
    (channels name version build_number platform : option filter_val)
    (native : bool) :
  is_ok (get_package_data sys_platform df key channels name version
           build_number platform native) = false
  ∧ get_package_data sys_platform df key channels name version
      build_number platform false
    = Err (TypeError "'tuple' object is not callable").
Proof.
  split; [|done].
  unfold get_package_data. destruct native; [|done].
  by destruct (native_platform sys_platform).
Qed.

(** ** Platform resolution *)

Lemma platform2subdir_unsupported platform :
  platform ∉ platforms →
  platform2subdir platform
  = Err (ValueError
           "Unsupported platform: bioconda only supports linux, osx and noarch.").
Proof.
  intros H. unfold platform2subdir, platforms in *.
  repeat (case_bool_decide; [subst; set_solver|]). done.
Qed.

(** C8: [platform2subdir] maps [linux], [osx] and [noarch] to their
    subdirectories and raises for every other value; [fetch_repodata]
    with such a value raises the same error and leaves the process as it
    was, so that no request has been sent. *)
Theorem unsupported_platform_no_request
    (remote : nat → string → result Response)
    (channel platform : string) (w : World) :
  platform2subdir "linux" = Ok "linux-64"
  ∧ platform2subdir "osx" = Ok "osx-64"
  ∧ platform2subdir "noarch" = Ok "noarch"
  ∧ (platform ∉ ["linux"; "osx"; "noarch"] →
     platform2subdir platform
     = Err (ValueError
              "Unsupported platform: bioconda only supports linux, osx and noarch.")
     ∧ fetch_repodata remote channel platform w
       = (Err (ValueError
                 "Unsupported platform: bioconda only supports linux, osx and noarch."),
          w)).
Proof.
  repeat split; try reflexivity.
  - by apply platform2subdir_unsupported.
  - unfold fetch_repodata, bindM, lift.
    by rewrite platform2subdir_unsupported.
Qed.

(** ** Requests and errors of the construction *)

Section Construction.

Variable remote : nat → string → result Response.
Variable infer_column : list string → list cell.

Lemma surfaces_silent {A} (m : M A) :
  (∀ w, requests (m w).2 = requests w) → surfaces_http_errors remote m.
Proof.
  intros H w. exists []. rewrite H, app_nil_r. split; [done|].
  intros i url resp Hi. by rewrite lookup_nil in Hi.
Qed.

Lemma surfaces_bind {A B} (m : M A) (k : A → M B) :
  surfaces_http_errors remote m →
  (∀ a, surfaces_http_errors remote (k a)) →
  surfaces_http_errors remote (bindM m k).
Proof.
  intros Hm Hk w. unfold bindM.
  destruct (Hm w) as (us & Hreq & Herr).
  destruct (m w) as [[a|e] w1] eqn:E; simpl in *.
  - destruct (Hk a w1) as (us' & Hreq' & Herr').
    exists (us ++ us')%list. split.
    + by rewrite Hreq', Hreq, app_assoc.
    + intros i url resp Hi Hr Hs.
      destruct (decide (i < length us)%nat) as [Hlt|Hge].
      * rewrite lookup_app_l in Hi by done.
        by specialize (Herr i url resp Hi Hr Hs).
      * rewrite lookup_app_r in Hi by lia.
        apply (Herr' _ url resp Hi); [|done].
        rewrite Hreq, length_app.
        by replace (length (requests w) + length us + (i - length us))%nat
          with (length (requests w) + i)%nat by lia.
  - exists us. split; [done|]. intros i url resp Hi Hr Hs.
    by injection (Herr i url resp Hi Hr Hs) as ->.
Qed.

Lemma surfaces_for_each {A B} (l : list A) (f : A → M B) :
  (∀ a, surfaces_http_errors remote (f a)) →
  surfaces_http_errors remote (for_each l f).
Proof.
  intros Hf. induction l as [|a l IH]; simpl.
  - by apply surfaces_silent.
  - apply surfaces_bind; [done|]. intros b.
    apply surfaces_bind; [done|]. intros bs. by apply surfaces_silent.
Qed.

Lemma surfaces_fetch_repodata channel platform :
  surfaces_http_errors remote (fetch_repodata remote channel platform).
Proof.
  intros w. unfold fetch_repodata, bindM, lift, requests_get, raise.
  destruct (platform2subdir platform) as [subdir|e]; simpl.
  - fold (resolved_url channel subdir).
    set (url := resolved_url channel subdir). exists [url].
    destruct (remote (length (requests w)) url) as [resp|e] eqn:E; simpl.
    + case_bool_decide as Hs; simpl.
      * split; [done|]. intros [|i] u r Hi Hr Hs'; [|done].
        simplify_eq/=. rewrite Nat.add_0_r in Hr. congruence.
      * split; [done|]. intros [|i] u r Hi Hr Hs'; [|done].
        simplify_eq/=. rewrite Nat.add_0_r in Hr. congruence.
    + split; [done|]. intros [|i] u r Hi Hr Hs'; [|done].
      simplify_eq/=. rewrite Nat.add_0_r in Hr. congruence.
  - exists []. rewrite app_nil_r. split; [done|].
    intros i u r Hi. by rewrite lookup_nil in Hi.
Qed.

Lemma surfaces_load_pair channel platform :
  surfaces_http_errors remote (load_pair remote channel platform).
Proof.
  unfold load_pair.
  apply surfaces_bind; [by apply surfaces_silent|]. intros _.
  apply surfaces_bind; [apply surfaces_fetch_repodata|]. intros repo.
  apply surfaces_bind; [by apply surfaces_silent|]. intros pk.
  apply surfaces_bind; [by apply surfaces_silent|]. intros i.
  apply surfaces_bind; [by apply surfaces_silent|]. intros s.
  by apply surfaces_silent.
Qed.

Lemma surfaces_load_all : surfaces_http_errors remote (load_all remote).
Proof.
  unfold load_all. apply surfaces_bind; [|intros dfs; by apply surfaces_silent].
  apply surfaces_for_each. intros channel.
  apply surfaces_for_each. intros platform. apply surfaces_load_pair.
Qed.

Lemma surfaces_init self cache :
  surfaces_http_errors remote (RepoData__init__ remote infer_column self cache).
Proof.
  unfold RepoData__init__.
  apply surfaces_bind.
  { destruct cache; by apply surfaces_silent. }
  intros [|].
  - apply surfaces_bind; [|intros d; by apply surfaces_silent].
    apply surfaces_silent. intros w. unfold read_table.
    by destruct (files w !! default "" cache).
  - apply surfaces_bind; [apply surfaces_load_all|].
    intros dfs. apply surfaces_bind; [by apply surfaces_silent|]. intros d.
    apply surfaces_bind; [by apply surfaces_silent|]. intros _.
    destruct cache; by apply surfaces_silent.
Qed.

Lemma surfaces_RepoData args :
  surfaces_http_errors remote (RepoData remote infer_column args).
Proof.
  unfold RepoData. apply surfaces_bind.
  { apply surfaces_silent. intros w. destruct args; [done|].
    unfold RepoData__new__. by destruct (RepoData__instance w). }
  intros self. apply surfaces_bind; [apply surfaces_init|].
  intros _. by apply surfaces_silent.
Qed.

(** C7: a response with a status other than 200 makes [fetch_repodata]
    raise an [HTTPError] whose message holds the status code, the reason
    and the URL requested; and in a construction call, any request that
    gets such a response makes the call end in that very error, so that
    the caller gets no instance. *)
Theorem non_200_aborts_construction
    (channel platform subdir : string) (resp : Response)
    (args : option (option string)) (w : World) :
  (platform2subdir platform = Ok subdir →
   remote (length (requests w)) (resolved_url channel subdir) = Ok resp →
   status_code resp ≠ 200 →
   (fetch_repodata remote channel platform w).1
   = Err (HTTPError
            (pretty (status_code resp) ++ " " ++ reason resp ++ " for "
             ++ resolved_url channel subdir))
   ∧ requests (fetch_repodata remote channel platform w).2
     = (requests w ++ [resolved_url channel subdir])%list)
  ∧ surfaces_http_errors remote (RepoData remote infer_column args).
Proof.
  split; [|apply surfaces_RepoData].
  intros Hp Hr Hs.
  unfold fetch_repodata, bindM, lift, requests_get, raise.
  rewrite Hp. simpl. fold (resolved_url channel subdir). rewrite Hr. simpl.
  by rewrite bool_decide_eq_false_2.
Qed.

End Construction.

(** ** The singleton slot and the objects during construction *)

Section Singleton.

Variable remote : nat → string → result Response.
Variable infer_column : list string → list cell.

Lemma quiet_bind {A B} (m : M A) (k : A → M B) :
  quiet m → (∀ a, quiet (k a)) → quiet (bindM m k).
Proof.
  intros Hm Hk w. unfold bindM. specialize (Hm w).
  destruct (m w) as [[a|e] w1]; simpl in *; [|done].
  destruct (Hk a w1) as (-> & -> & ->). done.
Qed.

Lemma quiet_for_each {A B} (l : list A) (f : A → M B) :
  (∀ a, quiet (f a)) → quiet (for_each l f).
Proof.
  intros Hf. induction l as [|a l IH]; simpl; [done|].
  apply quiet_bind; [done|]. intros b.
  apply quiet_bind; [done|]. done.
Qed.

Lemma quiet_fetch_repodata channel platform :
  quiet (fetch_repodata remote channel platform).
Proof.
  intros w. unfold fetch_repodata, bindM, lift, requests_get, raise.
  destruct (platform2subdir platform) as [subdir|]; simpl; [|done].
  destruct (remote _ _) as [resp|]; simpl; [|done].
  by case_bool_decide.
Qed.

Lemma quiet_load_pair channel platform :
  quiet (load_pair remote channel platform).
Proof.
  unfold load_pair.
  apply quiet_bind; [done|]. intros _.
  apply quiet_bind; [apply quiet_fetch_repodata|]. intros repo.
  apply quiet_bind; [done|]. intros pk.
  apply quiet_bind; [done|]. intros i.
  apply quiet_bind; done.
Qed.

Lemma quiet_load_all : quiet (load_all remote).
Proof.
  unfold load_all. apply quiet_bind; [|done].
  apply quiet_for_each. intros channel.
  apply quiet_for_each. intros platform. apply quiet_load_pair.
Qed.

Lemma init_no_cache self w :
  RepoData__init__ remote infer_column self None w
  = bindM (load_all remote) (λ dfs,
      bindM (lift (pd_concat dfs)) (λ d,
        bindM (set_df self d) (λ _, ret ()))) w.
Proof. reflexivity. Qed.

(** A failing [__init__] without cache has assigned nothing. *)
Lemma init_failure_frame self w e w1 :
  RepoData__init__ remote infer_column self None w = (Err e, w1) →
  RepoData__instance w1 = RepoData__instance w
  ∧ heap w1 = heap w ∧ files w1 = files w.
Proof.
  rewrite init_no_cache. unfold bindM at 1.
  pose proof (quiet_load_all w) as Hq.
  destruct (load_all remote w) as [[dfs|e'] w'].
  - unfold bindM, lift, set_df, ret.
    destruct (pd_concat dfs); simpl; [done|].
    by intros [= <- <-].
  - by intros [= <- <-].
Qed.

(** [__init__] never touches the slot nor the number of objects. *)
Lemma init_slot self cache w :
  RepoData__instance (RepoData__init__ remote infer_column self cache w).2
  = RepoData__instance w
  ∧ length (heap (RepoData__init__ remote infer_column self cache w).2)
    = length (heap w).
Proof.
  assert (Hbuild : ∀ w0 res w2,
    bindM (load_all remote) (λ dfs,
      bindM (lift (pd_concat dfs)) (λ d,
        bindM (set_df self d) (λ _,
          match cache with
          | Some path => write_file path (to_csv d)
          | None => ret ()
          end))) w0 = (res, w2) →
    RepoData__instance w2 = RepoData__instance w0
    ∧ length (heap w2) = length (heap w0)).
  { intros w0 res w2. unfold bindM at 1.
    pose proof (quiet_load_all w0) as Hq.
    destruct (load_all remote w0) as [[dfs|e'] w']; simpl in Hq.
    - destruct Hq as (<- & <- & _).
      unfold bindM, lift, set_df, ret, write_file.
      destruct (pd_concat dfs); simpl; [|by intros [= <- <-]].
      destruct cache; simpl; intros [= <- <-]; simpl;
        by rewrite length_insert.
    - destruct Hq as (<- & <- & _). by intros [= <- <-]. }
  destruct (RepoData__init__ remote infer_column self cache w)
    as [res w2] eqn:E. simpl.
  destruct cache as [path|].
  - unfold RepoData__init__, bindM at 1, os_path_exists in E. simpl in E.
    case_bool_decide as Hex; [|by eapply Hbuild].
    unfold bindM, read_table, set_df in E. simpl in E.
    destruct (files w !! path); simpl in E; injection E as <- <-; simpl;
      [by rewrite length_insert|done].
  - by eapply Hbuild.
Qed.

Lemma load_pair_requests channel platform subdir w :
  platform2subdir platform = Ok subdir →
  requests (load_pair remote channel platform w).2
  = (requests w ++ [resolved_url channel subdir])%list.
Proof.
  intros Hp.
  unfold load_pair, fetch_repodata, bindM, print, lift, requests_get, raise.
  simpl. rewrite Hp. simpl. fold (resolved_url channel subdir).
  destruct (remote _ _) as [resp|]; simpl; [|done].
  case_bool_decide; simpl; [|done].
  destruct (json resp) as [repo|]; simpl; [|done].
  destruct (packages repo); simpl; [|done].
  destruct (info repo) as [i|]; simpl; [|done].
  by destruct (i !! "subdir").
Qed.

Lemma starts_with_bind {A B} url (m : M A) (k : A → M B) :
  starts_with url m →
  (∀ a, surfaces_http_errors remote (k a)) →
  starts_with url (bindM m k).
Proof.
  intros Hm Hk w. unfold bindM. destruct (Hm w) as [rest Hrest].
  destruct (m w) as [[a|e] w1]; simpl in *; [|by exists rest].
  destruct (Hk a w1) as (us & Hus & _).
  exists (rest ++ us)%list. by rewrite Hus, Hrest, <- app_assoc.
Qed.

Lemma for_each_cons {A B} (a : A) (l : list A) (f : A → M B) :
  for_each (a :: l) f
  = bindM (f a) (λ b, bindM (for_each l f) (λ bs, ret (b :: bs))).
Proof. reflexivity. Qed.

Lemma starts_with_load_all : starts_with first_url (load_all remote).
Proof.
  unfold load_all. apply starts_with_bind; [|intros dfs; by apply surfaces_silent].
  unfold channels. rewrite for_each_cons.
  apply starts_with_bind.
  - unfold platforms. rewrite for_each_cons.
    apply starts_with_bind.
    + intros w. exists []. by apply load_pair_requests.
    + intros b. apply surfaces_bind; [|intros bs; by apply surfaces_silent].
      apply surfaces_for_each. intros platform. apply surfaces_load_pair.
  - intros b. apply surfaces_bind; [|intros bs; by apply surfaces_silent].
    apply surfaces_for_each. intros channel.
    apply surfaces_for_each. intros platform. apply surfaces_load_pair.
Qed.

Lemma starts_with_init self :
  starts_with first_url (RepoData__init__ remote infer_column self None).
Proof.
  intros w. rewrite init_no_cache. revert w.
  apply starts_with_bind; [apply starts_with_load_all|].
  intros dfs. apply surfaces_bind; [by apply surfaces_silent|]. intros d.
  apply surfaces_bind; [by apply surfaces_silent|].
  intros _. by apply surfaces_silent.
Qed.

Lemma starts_with_RepoData :
  starts_with first_url (RepoData remote infer_column None).
Proof.
  intros w. unfold RepoData, bindM at 1.
  assert (Hnew : requests (RepoData__new__ w).2 = requests w).
  { unfold RepoData__new__. by destruct (RepoData__instance w). }
  destruct (RepoData__new__ w) as [[self|e] w1] eqn:E; simpl in *.
  - rewrite <- Hnew.
    apply (starts_with_bind first_url
             (RepoData__init__ remote infer_column self None)
             (λ _, ret self)).
    + apply starts_with_init.
    + intros _. by apply surfaces_silent.
  - unfold RepoData__new__ in E. by destruct (RepoData__instance w).
Qed.

(** C3, on a process whose singleton slot already holds an instance
    (as it does after a first construction): a further call [RepoData()]
    makes no new object and keeps the slot, but runs [__init__] again,
    which sends the requests of a build from the first pair on; the
    table is fetched anew at every call. *)
Theorem existing_instance_is_rebuilt (w : World) (o : nat) :
  RepoData__instance w = Some o →
  RepoData__instance (RepoData remote infer_column None w).2 = Some o
  ∧ length (heap (RepoData remote infer_column None w).2) = length (heap w)
  ∧ RepoData remote infer_column None w
    = bindM (RepoData__init__ remote infer_column o None) (λ _, ret o) w
  ∧ ∃ rest, requests (RepoData remote infer_column None w).2
            = (requests w ++ first_url :: rest)%list.
Proof.
  intros Hslot.
  assert (Heq : RepoData remote infer_column None w
    = bindM (RepoData__init__ remote infer_column o None) (λ _, ret o) w).
  { unfold RepoData, bindM at 1, RepoData__new__. by rewrite Hslot. }
  split; [|split; [|split; [done|apply starts_with_RepoData]]].
  - rewrite Heq. unfold bindM.
    pose proof (init_slot o None w) as [Hs _].
    destruct (RepoData__init__ _ _ o None w) as [[[]|e] w1]; simpl in *;
      by rewrite Hs.
  - rewrite Heq. unfold bindM.
    pose proof (init_slot o None w) as [_ Hl].
    by destruct (RepoData__init__ _ _ o None w) as [[[]|e] w1].
Qed.

End Singleton.

(** ** A construction that fails *)

Section FailedConstruction.

Variable remote : nat → string → result Response.
Variable infer_column : list string → list cell.

Lemma new_returns_the_instance w :
  (RepoData__new__ w).1 = Ok (the_instance w)
  ∧ RepoData__instance (RepoData__new__ w).2 = Some (the_instance w)
  ∧ files (RepoData__new__ w).2 = files w
  ∧ requests (RepoData__new__ w).2 = requests w.
Proof.
  unfold RepoData__new__, the_instance.
  destruct (RepoData__instance w) eqn:E; simpl; repeat split; done.
Qed.

Lemma new_existing w o :
  RepoData__instance w = Some o → RepoData__new__ w = (Ok o, w).
Proof. unfold RepoData__new__. by intros ->. Qed.

Lemma RepoData_unfold w :
  RepoData remote infer_column None w
  = bindM (RepoData__init__ remote infer_column (the_instance w) None)
      (λ _, ret (the_instance w)) (RepoData__new__ w).2.
Proof.
  unfold RepoData, bindM at 1.
  pose proof (new_returns_the_instance w) as [H _].
  destruct (RepoData__new__ w) as [r w']. simpl in *. by rewrite H.
Qed.

(** C4, amended: a construction call that fails returns the error of
    the step of [__init__] that failed and assigns no table: the
    objects are as [__new__] left them and no file is written.  The
    instance does stay in the singleton slot; a later call reuses it
    and runs [__init__] on it again, a build that starts over from the
    first pair. *)
Theorem failed_construction_keeps_instance (w : World) (e : exn) (w1 : World) :
  RepoData remote infer_column None w = (Err e, w1) →
  RepoData__init__ remote infer_column (the_instance w) None
    (RepoData__new__ w).2 = (Err e, w1)
  ∧ RepoData__instance w1 = Some (the_instance w)
  ∧ heap w1 = heap (RepoData__new__ w).2
  ∧ files w1 = files w
  ∧ ∀ remote' : nat → string → result Response,
      RepoData remote' infer_column None w1
      = bindM (RepoData__init__ remote' infer_column (the_instance w) None)
          (λ _, ret (the_instance w)) w1
      ∧ ∃ rest, requests (RepoData remote' infer_column None w1).2
                = (requests w1 ++ first_url :: rest)%list.
Proof.
  rewrite RepoData_unfold. unfold bindM at 1.
  destruct (RepoData__init__ remote infer_column (the_instance w) None
              (RepoData__new__ w).2) as [[[]|e'] w'] eqn:E; [done|].
  intros [= -> ->]. split; [done|].
  destruct (init_failure_frame _ _ _ _ _ _ E) as (Hs & Hh & Hf).
  destruct (new_returns_the_instance w) as (_ & Hs' & Hf' & _).
  assert (Hslot : RepoData__instance w1 = Some (the_instance w))
    by (by rewrite Hs).
  split; [done|]. split; [done|]. split; [by rewrite Hf|].
  intros remote'. split; [|apply starts_with_RepoData].
  unfold RepoData, bindM at 1. by rewrite (new_existing _ _ Hslot).
Qed.

End FailedConstruction.

(** ** The records of one channel and platform *)

Lemma stamped_frame pk channel platform s :
  setitem (setitem (setitem (from_dict pk _load_columns)
                      "channel" (CStr channel))
             "platform" (CStr platform))
    "subdir" s
  = mkDataFrame None table_columns (stamped_row channel platform s <$> pk).
Proof.
  unfold setitem at 3. unfold from_dict at 1. simpl columns.
  replace (col_pos _load_columns "channel") with (@None nat) by reflexivity.
  unfold setitem at 2. simpl columns.
  replace (col_pos (_load_columns ++ ["channel"]) "platform")
    with (@None nat) by reflexivity.
  unfold setitem. simpl columns.
  replace (col_pos ((_load_columns ++ ["channel"]) ++ ["platform"]) "subdir")
    with (@None nat) by reflexivity.
  simpl. f_equal. rewrite <- !list_fmap_compose.
  apply list_fmap_ext. by intros _ [k b] _.
Qed.

Lemma stamped_row_cells channel platform s kb :
  row_cell table_columns (stamped_row channel platform s kb) "channel"
  = CStr channel
  ∧ row_cell table_columns (stamped_row channel platform s kb) "platform"
    = CStr platform
  ∧ row_cell table_columns (stamped_row channel platform s kb) "subdir" = s.
Proof. repeat split; reflexivity. Qed.

(** C9: when the request for a channel and platform gets a 200 with a
    document that has [packages] and a subdirectory in [info], the loop
    body returns one row per entry of [packages]; whatever the entries
    hold, each row has the channel and the platform of the iteration in
    its [channel] and [platform] fields, and in [subdir] what the [info]
    of the document says, not the subdirectory that was requested. *)
Theorem load_pair_stamps_records
    (remote : nat → string → result Response)
    (channel platform subdir : string) (resp : Response) (repo : Repodata)
    (pk : list (string * gmap string cell)) (i : gmap string cell)
    (s : cell) (w : World) :
  platform2subdir platform = Ok subdir →
  remote (length (requests w)) (resolved_url channel subdir) = Ok resp →
  status_code resp = 200 →
  json resp = Ok repo →
  packages repo = Some pk →
  info repo = Some i →
  i !! "subdir" = Some s →
  ∃ d,
    (load_pair remote channel platform w).1 = Ok d
    ∧ d = mkDataFrame None table_columns (stamped_row channel platform s <$> pk)
    ∧ ∀ r, r ∈ rows d →
        row_cell (columns d) r "channel" = CStr channel
        ∧ row_cell (columns d) r "platform" = CStr platform
        ∧ row_cell (columns d) r "subdir" = s.
Proof.
  intros Hp Hr Hs Hj Hpk Hi Hsub.
  exists (mkDataFrame None table_columns (stamped_row channel platform s <$> pk)).
  split; [|split; [done|]].
  - unfold load_pair, fetch_repodata, bindM, print, lift, requests_get, raise.
    simpl. rewrite Hp. simpl. fold (resolved_url channel subdir).
    rewrite Hr. simpl. rewrite bool_decide_eq_true_2 by done. simpl.
    rewrite Hj. simpl. rewrite Hpk. simpl. rewrite Hi. simpl.
    rewrite Hsub. simpl. unfold ret. simpl. f_equal. apply stamped_frame.
  - simpl. intros r [kb [-> _]]%list_elem_of_fmap.
    apply stamped_row_cells.
Qed.

(** ** Writing the table and reading it back *)






Section BuiltTable.

Variable remote : nat → string → result Response.
Variable infer_column : list string → list cell.

Lemma load_pair_shape channel platform w d w1 :
  load_pair remote channel platform w = (Ok d, w1) → table_shaped d.
Proof.
  unfold load_pair, fetch_repodata, bindM, print, lift, requests_get, raise.
  simpl. destruct (platform2subdir platform); simpl; [|done].
  destruct (remote _ _) as [resp|]; simpl; [|done].
  case_bool_decide; simpl; [|done].
  destruct (json resp) as [repo|]; simpl; [|done].
  destruct (packages repo) as [pk|]; simpl; [|done].
  destruct (info repo) as [i|]; simpl; [|done].
  destruct (i !! "subdir") as [s|]; simpl; [|done].
  unfold ret. intros [= <- _]. rewrite stamped_frame.
  split; [done|]. unfold well_formed. simpl.
  apply Forall_fmap, Forall_forall. by intros kb _.
Qed.

Lemma for_each_Forall {A B} (P : B → Prop) (l : list A) (f : A → M B) :
  (∀ a w b w', f a w = (Ok b, w') → P b) →
  ∀ w bs w', for_each l f w = (Ok bs, w') → Forall P bs.
Proof.
  intros Hf. induction l as [|a l IH]; intros w bs w'; simpl.
  - unfold ret. by intros [= <- _].
  - unfold bindM at 1. destruct (f a w) as [[b|] w1] eqn:E; [|done].
    unfold bindM. destruct (for_each l f w1) as [[bs'|] w2] eqn:E'; [|done].
    unfold ret. intros [= <- _]. constructor; eauto.
Qed.


Lemma union_columns_same dfs acc :
  acc = table_columns → Forall table_shaped dfs →
  fold_left (λ acc d, (acc ++ filter (λ c, c ∉ acc) (columns d))%list) dfs acc
  = table_columns.
Proof.
  intros -> H. induction H as [|d dfs [Hc _] _ IH]; [done|].
  simpl. rewrite Hc. exact IH.
Qed.

Lemma reindexed_rows_length cs (dfs : list DataFrame) :
  Forall (λ r : row, length r.2 = length cs) (dfs ≫= reindex_columns cs).
Proof.
  apply Forall_forall. intros r (d' & Hr & _)%list_elem_of_bind.
  unfold reindex_columns in Hr.
  apply list_elem_of_fmap in Hr as (r' & -> & _). simpl.
  by rewrite length_fmap.
Qed.

Lemma pd_concat_shape dfs d :
  Forall table_shaped dfs → pd_concat dfs = Ok d → table_shaped d.
Proof.
  intros H. unfold pd_concat. destruct dfs as [|d0 dfs]; [done|].
  intros [= <-]. split; simpl columns.
  - unfold union_columns. simpl fold_left.
    apply Forall_cons in H as [[Hc _] H]. rewrite Hc.
    by apply union_columns_same.
  - apply (reindexed_rows_length (union_columns (d0 :: dfs)) (d0 :: dfs)).
Qed.



End BuiltTable.








(** ** The properties on the sample host *)

(** After a first call on the sample remote side, a second call. *)
Lemma existing_instance_is_rebuilt_witness :
  RepoData__instance
    (RepoData remote_ok infer_simple None sample_first_call).2 = Some 0%nat
  ∧ length (heap (RepoData remote_ok infer_simple None sample_first_call).2)
    = length (heap sample_first_call)
  ∧ RepoData remote_ok infer_simple None sample_first_call
    = bindM (RepoData__init__ remote_ok infer_simple 0 None) (λ _, ret 0%nat)
        sample_first_call
  ∧ ∃ rest,
      requests (RepoData remote_ok infer_simple None sample_first_call).2
      = (requests sample_first_call ++ first_url :: rest)%list.
Proof.
  apply (existing_instance_is_rebuilt remote_ok infer_simple
           sample_first_call 0).
  reflexivity.
Defined.

Example second_call_requests :
  length (requests sample_first_call) = 9%nat
  ∧ length (requests (RepoData remote_ok infer_simple None sample_first_call).2)
    = 18%nat
  ∧ (RepoData remote_ok infer_simple None sample_first_call).1 = Ok 0%nat
  ∧ (RepoData remote_ok infer_simple (Some (Some "cache.tsv")) (start ∅)).1
    = Err (TypeError "__new__() takes 1 positional argument but 2 were given").
Proof. repeat split; vm_compute; reflexivity. Qed.

(** C4 as stated fails: after a call that every request of which gets a
    404, the singleton slot holds the object that the call made. *)
Lemma failed_construction_instance_cached :
  ¬ (∀ (remote : nat → string → result Response)
       (infer_column : list string → list cell) (w : World) (e : exn)
       (w1 : World),
       RepoData remote infer_column None w = (Err e, w1) →
       RepoData__instance w1 = None).
Proof.
  intros H.
  specialize (H remote_404 infer_simple (start ∅)
                (HTTPError (http_error_message not_found first_url))
                (RepoData remote_404 infer_simple None (start ∅)).2).
  assert (Hcall : RepoData remote_404 infer_simple None (start ∅)
            = (Err (HTTPError (http_error_message not_found first_url)),
               (RepoData remote_404 infer_simple None (start ∅)).2))
    by (vm_compute; reflexivity).
  specialize (H Hcall). vm_compute in H. discriminate H.
Qed.

(** A first call of which every request gets a 404. *)
Lemma failed_construction_keeps_instance_witness :
  RepoData__init__ remote_404 infer_simple (the_instance (start ∅)) None
    (RepoData__new__ (start ∅)).2
  = (Err (HTTPError (http_error_message not_found first_url)),
     (RepoData remote_404 infer_simple None (start ∅)).2)
  ∧ RepoData__instance (RepoData remote_404 infer_simple None (start ∅)).2
    = Some (the_instance (start ∅))
  ∧ heap (RepoData remote_404 infer_simple None (start ∅)).2
    = heap (RepoData__new__ (start ∅)).2
  ∧ files (RepoData remote_404 infer_simple None (start ∅)).2 = files (start ∅)
  ∧ ∀ remote' : nat → string → result Response,
      RepoData remote' infer_simple None
        (RepoData remote_404 infer_simple None (start ∅)).2
      = bindM (RepoData__init__ remote' infer_simple (the_instance (start ∅)) None)
          (λ _, ret (the_instance (start ∅)))
          (RepoData remote_404 infer_simple None (start ∅)).2
      ∧ ∃ rest,
          requests
            (RepoData remote' infer_simple None
               (RepoData remote_404 infer_simple None (start ∅)).2).2
          = (requests (RepoData remote_404 infer_simple None (start ∅)).2
             ++ first_url :: rest)%list.
Proof.
  apply (failed_construction_keeps_instance remote_404 infer_simple (start ∅)).
  vm_compute. reflexivity.
Defined.

(** A 404 for [bioconda] on [linux], and a call whose first request gets
    one. *)
Lemma non_200_aborts_construction_witness :
  (fetch_repodata remote_404 "bioconda" "linux" (start ∅)).1
  = Err (HTTPError
           "404 Not Found for https://conda.anaconda.org/bioconda/linux-64/repodata.json")
  ∧ requests (fetch_repodata remote_404 "bioconda" "linux" (start ∅)).2
    = ["https://conda.anaconda.org/bioconda/linux-64/repodata.json"]
  ∧ (RepoData remote_404 infer_simple None (start ∅)).1
    = Err (HTTPError
             "404 Not Found for https://conda.anaconda.org/conda-forge/linux-64/repodata.json").
Proof.
  destruct (non_200_aborts_construction remote_404 infer_simple
              "bioconda" "linux" "linux-64" not_found None (start ∅))
    as [Hfetch Hcall].
  destruct Hfetch as [Herr Hreq]; [reflexivity|reflexivity|simpl; lia|].
  split; [exact Herr|]. split; [exact Hreq|].
  destruct (Hcall (start ∅)) as (urls & Hurls & Hraise).
  apply (Hraise 0%nat first_url not_found).
  - vm_compute in Hurls. rewrite <- Hurls. reflexivity.
  - reflexivity.
  - simpl. lia.
Defined.

(** A Windows platform. *)
Lemma unsupported_platform_no_request_witness :
  ("win" ∉ ["linux"; "osx"; "noarch"])
  ∧ platform2subdir "win"
    = Err (ValueError
             "Unsupported platform: bioconda only supports linux, osx and noarch.")
  ∧ fetch_repodata remote_ok "bioconda" "win" (start ∅)
    = (Err (ValueError
              "Unsupported platform: bioconda only supports linux, osx and noarch."),
       start ∅).
Proof.
  assert (Hwin : "win" ∉ ["linux"; "osx"; "noarch"]).
  { intros H. repeat (apply elem_of_cons in H as [H|H]; [discriminate H|]).
    by apply elem_of_nil in H. }
  split; [exact Hwin|].
  by apply (unsupported_platform_no_request remote_ok "bioconda" "win" (start ∅)).
Defined.

(** The sample document fetched for [bioconda] on [osx]: its entry names
    another channel and platform, and its [info] a subdirectory that is
    not the one requested. *)
Lemma load_pair_stamps_records_witness :
  ∃ d,
    (load_pair remote_ok "bioconda" "osx" (start ∅)).1 = Ok d
    ∧ d = mkDataFrame None table_columns
            (stamped_row "bioconda" "osx" (CStr "linux-32")
               <$> default [] (packages sample_repodata))
    ∧ ∀ r, r ∈ rows d →
        row_cell (columns d) r "channel" = CStr "bioconda"
        ∧ row_cell (columns d) r "platform" = CStr "osx"
        ∧ row_cell (columns d) r "subdir" = CStr "linux-32".
Proof.
  apply (load_pair_stamps_records remote_ok "bioconda" "osx" "osx-64"
           (mkResponse 200 "OK" (Ok sample_repodata)) sample_repodata
           (default [] (packages sample_repodata))
           {[ "subdir" := CStr "linux-32" ]}); reflexivity.
Defined.

(** ** More on the read-only queries *)

Lemma group_pairs_lookup (kvs : list (cell * cell)) (k : cell) :
  group_pairs kvs !! k
  = if decide (k ≠ NaN ∧ k ∈ kvs.*1)
    then Some (snd <$> filter (λ kv : cell * cell, kv.1 = k) kvs)
    else None.
Proof.
  induction kvs as [|[k' v] kvs IH]; csimpl.
  - rewrite lookup_empty. case_decide as H; [|done].
    destruct H as [_ H]. by apply elem_of_nil in H.
  - rewrite filter_cons. simpl.
    destruct (decide (k' = NaN)) as [->|Hk'].
    + rewrite IH. destruct (decide (NaN = k)) as [<-|Hne].
      * rewrite !decide_False; [done|naive_solver..].
      * repeat case_decide; try done; exfalso; set_solver.
    + replace (match k' with NaN => group_pairs kvs | _ =>
                 <[k':=v :: default [] (group_pairs kvs !! k')]> (group_pairs kvs)
               end)
        with (<[k':=v :: default [] (group_pairs kvs !! k')]> (group_pairs kvs))
        by (by destruct k').
      destruct (decide (k' = k)) as [->|Hne].
      * rewrite lookup_insert_eq, IH.
        rewrite (decide_True (P := k ≠ NaN ∧ k ∈ k :: kvs.*1)) by set_solver.
        csimpl. do 2 f_equal. case_decide as H; [done|]. simpl.
        destruct (filter (λ kv : cell * cell, kv.1 = k) kvs) as [|[k1 v1] l] eqn:Ef;
          [done|].
        exfalso. apply H. split; [done|].
        assert (Hin : (k1, v1) ∈ filter (λ kv : cell * cell, kv.1 = k) kvs)
          by (rewrite Ef; apply list_elem_of_here).
        apply list_elem_of_filter in Hin as [Hk Hin]. simpl in Hk. subst k1.
        apply list_elem_of_fmap. by exists (k, v1).
      * rewrite lookup_insert_ne by done. rewrite IH.
        repeat case_decide; try done; exfalso; set_solver.
Qed.

Lemma get_versions_unfold df name i j k :
  col_pos (columns df) "name" = Some i →
  col_pos (columns df) "version" = Some j →
  col_pos (columns df) "platform" = Some k →
  get_versions df name
  = Ok (list_set <$> group_pairs
          ((λ r, (cell_at j r, cell_at k r)) <$>
           filter (λ r, cell_eqb (cell_at i r) (CStr name)) (rows df))).
Proof.
  intros Hi Hj Hk. unfold get_versions.
  rewrite (mask_eq_Some _ _ _ _ Hi). simpl.
  unfold select_columns, boolean_index. simpl. rewrite Hj, Hk. simpl.
  rewrite keep_rows_fmap. do 3 f_equal.
  induction (filter _ (rows df)) as [|r l IH]; [done|].
  csimpl. by rewrite IH.
Qed.

(** X1: on a table that has the columns of the class, [get_versions]
    returns a mapping whose keys are the versions (other than [NaN]) of
    the rows with the given name, and the list under a version holds,
    without repetition, the platforms of the rows with that name and
    version. *)
Theorem get_versions_groups (df : DataFrame) (name : string) :
  RepoData_columns ⊆ columns df →
  ∃ m, get_versions df name = Ok m
    ∧ (∀ v, is_Some (m !! v) ↔
         v ≠ NaN
         ∧ ∃ r, r ∈ rows df
              ∧ row_cell (columns df) r "name" = CStr name
              ∧ row_cell (columns df) r "version" = v)
    ∧ (∀ v ps, m !! v = Some ps →
         NoDup ps
         ∧ ∀ p, p ∈ ps ↔
             ∃ r, r ∈ rows df
                ∧ row_cell (columns df) r "name" = CStr name
                ∧ row_cell (columns df) r "version" = v
                ∧ row_cell (columns df) r "platform" = p).
Proof.
  intros Hcols.
  destruct (table_has_columns df "name" Hcols) as [i Hi];
    [unfold RepoData_columns, _load_columns; set_solver|].
  destruct (table_has_columns df "version" Hcols) as [j Hj];
    [unfold RepoData_columns, _load_columns; set_solver|].
  destruct (table_has_columns df "platform" Hcols) as [k Hk];
    [unfold RepoData_columns, _load_columns; set_solver|].
  rewrite (get_versions_unfold _ _ _ _ _ Hi Hj Hk).
  eexists. split; [reflexivity|].
  set (sel := filter (λ r, cell_eqb (cell_at i r) (CStr name)) (rows df)).
  set (kvs := (λ r, (cell_at j r, cell_at k r)) <$> sel).
  assert (Hsel : ∀ r, r ∈ sel ↔
            r ∈ rows df ∧ row_cell (columns df) r "name" = CStr name).
  { intros r. unfold sel. rewrite list_elem_of_filter.
    rewrite (row_cell_pos _ _ _ _ Hi), Is_true_true, cell_eqb_str. tauto. }
  assert (Hkvs : ∀ v p, (v, p) ∈ kvs ↔
            ∃ r, r ∈ rows df
               ∧ row_cell (columns df) r "name" = CStr name
               ∧ row_cell (columns df) r "version" = v
               ∧ row_cell (columns df) r "platform" = p).
  { intros v p. unfold kvs. rewrite list_elem_of_fmap. split.
    - intros (r & [= -> ->] & Hr). apply Hsel in Hr as [Hr Hn].
      exists r. by rewrite (row_cell_pos _ _ _ _ Hj), (row_cell_pos _ _ _ _ Hk).
    - intros (r & Hr & Hn & <- & <-). exists r.
      rewrite (row_cell_pos _ _ _ _ Hj), (row_cell_pos _ _ _ _ Hk).
      split; [done|]. by apply Hsel. }
  split.
  - intros v. rewrite lookup_fmap, group_pairs_lookup.
    case_decide as Hd; simpl.
    + split; [intros _|by eexists]. destruct Hd as [Hv Hin].
      split; [done|]. apply list_elem_of_fmap in Hin as ([v' p] & -> & Hin).
      apply Hkvs in Hin as (r & Hr & Hn & Hver & _). by exists r.
    + split; [by intros [? ?]|]. intros (Hv & r & Hr & Hn & Hver).
      exfalso. apply Hd. split; [done|]. apply list_elem_of_fmap.
      exists (v, row_cell (columns df) r "platform"). split; [done|].
      apply Hkvs. by exists r.
  - intros v ps. rewrite lookup_fmap, group_pairs_lookup.
    case_decide as Hd; [|done]. cbn [fmap option_fmap option_map].
    intros [= <-]. unfold list_set.
    split; [apply NoDup_elements|]. intros p.
    rewrite elem_of_elements, elem_of_list_to_set, list_elem_of_fmap.
    rewrite <- Hkvs. split.
    + intros ([v' p'] & -> & Hin).
      apply list_elem_of_filter in Hin as [Hv Hin]. simpl in *. by subst.
    + intros Hin. exists (v, p). split; [done|].
      by apply list_elem_of_filter.
Qed.

(** The table with versions 1.9, 1.10 and 2.0 of [p]. *)
Lemma get_versions_groups_witness :
  ∃ m, get_versions df_versions "p" = Ok m
    ∧ (∀ v, is_Some (m !! v) ↔
         v ≠ NaN
         ∧ ∃ r, r ∈ rows df_versions
              ∧ row_cell (columns df_versions) r "name" = CStr "p"
              ∧ row_cell (columns df_versions) r "version" = v)
    ∧ (∀ v ps, m !! v = Some ps →
         NoDup ps
         ∧ ∀ p, p ∈ ps ↔
             ∃ r, r ∈ rows df_versions
                ∧ row_cell (columns df_versions) r "name" = CStr "p"
                ∧ row_cell (columns df_versions) r "version" = v
                ∧ row_cell (columns df_versions) r "platform" = p).
Proof.
  apply (get_versions_groups df_versions "p").
  intros c Hc. vm_compute in Hc. vm_compute. set_solver.
Defined.

(** A version other than the empty string and a build number other than
    zero, on the table with two builds of [p]. *)
Lemma get_channels_spec_witness :
  get_channels df_builds "p" (Some "1.0") (Some 1)
  = Ok (spec_get_channels df_builds "p" (Some "1.0") (Some 1)).
Proof.
  apply (get_channels_spec df_builds "p" (Some "1.0") (Some 1)).
  - intros c Hc. vm_compute in Hc. vm_compute. set_solver.
  - discriminate.
  - discriminate.
Defined.

Lemma channels_of_filter_mono (f : row → cell) (P Q : row → bool) (l : list row) :
  (∀ r, P r = true → Q r = true) →
  (list_to_set (f <$> filter (λ r, P r) l) : gset cell)
  ⊆ list_to_set (f <$> filter (λ r, Q r) l).
Proof.
  intros H c. rewrite !elem_of_list_to_set, !list_elem_of_fmap.
  intros (r & -> & Hr). exists r. split; [done|].
  apply list_elem_of_filter in Hr as [HP Hr]. apply list_elem_of_filter.
  split; [|done]. apply Is_true_true, H. by apply Is_true_true.
Qed.

(** X3: on a table that has the columns of the class, [get_channels]
    never raises, and leaving out a constraint can only add channels: the
    answer with version and build number is within the answer with either
    one alone, and these are within the answer for the name alone. *)
Theorem get_channels_monotone (df : DataFrame) (name : string)
    (version : option string) (build_number : option Z) :
  RepoData_columns ⊆ columns df →
  ∃ s sv sb sn : gset cell,
    get_channels df name version build_number = Ok s
    ∧ get_channels df name version None = Ok sv
    ∧ get_channels df name None build_number = Ok sb
    ∧ get_channels df name None None = Ok sn
    ∧ s ⊆ sv ∧ s ⊆ sb ∧ sv ⊆ sn ∧ sb ⊆ sn.
Proof.
  intros Hcols.
  destruct (table_has_columns df "name" Hcols) as [i Hi];
    [unfold RepoData_columns, _load_columns; set_solver|].
  destruct (table_has_columns df "version" Hcols) as [j Hj];
    [unfold RepoData_columns, _load_columns; set_solver|].
  destruct (table_has_columns df "build_number" Hcols) as [k Hk];
    [unfold RepoData_columns, _load_columns; set_solver|].
  destruct (table_has_columns df "channel" Hcols) as [l Hl];
    [unfold RepoData_columns, _load_columns; set_solver|].
  rewrite !(get_channels_unfold _ _ _ _ _ _ _ _ Hi Hj Hk Hl).
  do 4 eexists. do 4 (split; [reflexivity|]).
  repeat split; apply channels_of_filter_mono; intros r; simpl;
    rewrite ?andb_true_r, ?andb_true_iff; tauto.
Qed.

Lemma get_channels_monotone_witness :
  ∃ s sv sb sn : gset cell,
    get_channels df_builds "p" (Some "1.0") (Some 1) = Ok s
    ∧ get_channels df_builds "p" (Some "1.0") None = Ok sv
    ∧ get_channels df_builds "p" None (Some 1) = Ok sb
    ∧ get_channels df_builds "p" None None = Ok sn
    ∧ s ⊆ sv ∧ s ⊆ sb ∧ sv ⊆ sn ∧ sb ⊆ sn.
Proof.
  apply (get_channels_monotone df_builds "p" (Some "1.0") (Some 1)).
  intros c Hc. vm_compute in Hc. vm_compute. set_solver.
Defined.

(** ** The maximum of a group of versions *)

Section MaxVers.

Context {vorder : Type}.
Variable VersionOrder : cell → result vorder.
Variable vo_lt : vorder → vorder → bool.

Hypothesis vo_lt_asym : ∀ a b, vo_lt a b = true → vo_lt b a = false.
Hypothesis vo_ge_trans :
  ∀ a b c, vo_lt a b = false → vo_lt b c = false → vo_lt a c = false.

Lemma vo_lt_irrefl a : vo_lt a a = false.
Proof.
  destruct (vo_lt a a) eqn:E; [|done].
  by rewrite (vo_lt_asym _ _ E) in E.
Qed.

Lemma max_from_spec (x : list cell) (cur : vorder) (os : list vorder) :
  rmapM VersionOrder x = Ok os →
  ∃ m, max_from vorder VersionOrder vo_lt cur x = Ok m
     ∧ (m = cur ∨ m ∈ os)
     ∧ vo_lt m cur = false
     ∧ ∀ o, o ∈ os → vo_lt m o = false.
Proof.
  revert cur os. induction x as [|v x IH]; intros cur os; simpl.
  - intros [= <-]. exists cur. split; [done|]. split; [by left|].
    split; [apply vo_lt_irrefl|]. by intros o ?%elem_of_nil.
  - destruct (VersionOrder v) as [o|] eqn:Ev; simpl; [|done].
    destruct (rmapM VersionOrder x) as [os'|] eqn:Ex; simpl; [|done].
    intros [= <-].
    destruct (IH (if vo_lt cur o then o else cur) os' eq_refl)
      as (m & Hm & Hin & Hcur & Hall).
    exists m. split; [done|].
    assert (Hboth : vo_lt m cur = false ∧ vo_lt m o = false).
    { destruct (vo_lt cur o) eqn:Eco.
      - split; [|done]. eapply vo_ge_trans; [exact Hcur|].
        by apply vo_lt_asym.
      - split; [done|]. by eapply vo_ge_trans. }
    destruct Hboth as [Hmc Hmo]. split; [|split; [done|]].
    + destruct Hin as [->|Hin].
      * destruct (vo_lt cur o); [right; apply list_elem_of_here|by left].
      * right. by apply list_elem_of_further.
    + intros o' [->|Ho']%elem_of_cons; [done|by apply Hall].
Qed.

(** X4: for a version order that is asymmetric and whose "not less" is
    transitive, [max_vers] on a group of versions that [VersionOrder]
    accepts returns one of them, and none of them is greater. *)
Theorem max_vers_is_maximum (x : list cell) (os : list vorder) :
  x ≠ [] →
  rmapM VersionOrder x = Ok os →
  ∃ m, max_vers vorder VersionOrder vo_lt x = Ok m
     ∧ m ∈ os
     ∧ ∀ o, o ∈ os → vo_lt m o = false.
Proof.
  destruct x as [|v x]; [done|]. intros _. simpl.
  destruct (VersionOrder v) as [o|] eqn:Ev; simpl; [|done].
  destruct (rmapM VersionOrder x) as [os'|] eqn:Ex; simpl; [|done].
  intros [= <-].
  destruct (max_from_spec x o os' Ex) as (m & Hm & Hin & Hcur & Hall).
  exists m. split; [done|]. split.
  - destruct Hin as [->|Hin];
      [apply list_elem_of_here|by apply list_elem_of_further].
  - intros o' [->|Ho']%elem_of_cons; [done|by apply Hall].
Qed.

End MaxVers.

Section MaxVersErrors.

Context {vorder : Type}.
Variable VersionOrder : cell → result vorder.
Variable vo_lt : vorder → vorder → bool.

Lemma max_from_fail_fast (x1 : list cell) (v : cell) (x2 : list cell)
    (os : list vorder) (e : exn) (cur : vorder) :
  rmapM VersionOrder x1 = Ok os →
  VersionOrder v = Err e →
  max_from vorder VersionOrder vo_lt cur (x1 ++ v :: x2) = Err e.
Proof.
  revert cur os. induction x1 as [|u x1 IH]; intros cur os H1 Hv; simpl.
  - by rewrite Hv.
  - simpl in H1. destruct (VersionOrder u) as [o|]; simpl in *; [|done].
    destruct (rmapM VersionOrder x1) as [os'|] eqn:Ex; simpl in *; [|done].
    by eapply IH.
Qed.

(** X5: [max_vers] fails fast: when a version of the group is rejected
    by [VersionOrder] and those before it are accepted, [max_vers] raises
    the error of that version, whatever follows it. *)
Theorem max_vers_fail_fast (x1 : list cell) (v : cell) (x2 : list cell)
    (os : list vorder) (e : exn) :
  rmapM VersionOrder x1 = Ok os →
  VersionOrder v = Err e →
  max_vers vorder VersionOrder vo_lt (x1 ++ v :: x2) = Err e.
Proof.
  intros H1 Hv. destruct x1 as [|u x1]; simpl.
  - by rewrite Hv.
  - simpl in H1. destruct (VersionOrder u) as [o|]; simpl in *; [|done].
    destruct (rmapM VersionOrder x1) as [os'|] eqn:Ex; simpl in *; [|done].
    by eapply max_from_fail_fast.
Qed.

End MaxVersErrors.

Lemma parts_lt_asym a b : parts_lt a b = true → parts_lt b a = false.
Proof.
  revert b. induction a as [|x a IH]; intros [|y b]; simpl; try done.
  destruct (N.ltb_spec x y), (N.ltb_spec y x); try done; try lia.
  apply IH.
Qed.

Lemma parts_ge_trans a b c :
  parts_lt a b = false → parts_lt b c = false → parts_lt a c = false.
Proof.
  revert b c. induction a as [|x a IH]; intros [|y b] [|z c]; simpl; try done.
  destruct (N.ltb_spec x y), (N.ltb_spec y x), (N.ltb_spec y z),
    (N.ltb_spec z y), (N.ltb_spec x z), (N.ltb_spec z x);
    try done; try lia.
  apply IH.
Qed.

(** Versions 1.9, 1.10 and 2.0 under the order of dotted numbers. *)
Lemma max_vers_is_maximum_witness :
  ∃ m, max_vers _ dotted_VersionOrder parts_lt
         [CStr "1.9"; CStr "1.10"; CStr "2.0"] = Ok m
     ∧ m ∈ [[1; 9]; [1; 10]; [2; 0]]%N
     ∧ ∀ o, o ∈ [[1; 9]; [1; 10]; [2; 0]]%N → parts_lt m o = false.
Proof.
  apply (max_vers_is_maximum dotted_VersionOrder parts_lt
           parts_lt_asym parts_ge_trans).
  - discriminate.
  - reflexivity.
Defined.

(** A group whose second version is not a dotted number. *)
Lemma max_vers_fail_fast_witness :
  max_vers _ dotted_VersionOrder parts_lt
    ([CStr "1.9"] ++ CStr "1.x" :: [CStr "2.0"])
  = Err (ValueError "Malformed version string").
Proof.
  apply (max_vers_fail_fast dotted_VersionOrder parts_lt
           [CStr "1.9"] (CStr "1.x") [CStr "2.0"] [[1; 9]%N]); reflexivity.
Defined.

(** ** One fetch *)

(** X6: for a supported platform, [fetch_repodata] sends exactly one
    request, to the URL resolved for the channel and the subdirectory,
    and touches nothing else of the process; it returns a document exactly
    when that request gets a 200 whose body parses to that document. *)
Theorem fetch_repodata_one_request
    (remote : nat → string → result Response)
    (channel platform subdir : string) (w : World) :
  platform2subdir platform = Ok subdir →
  requests (fetch_repodata remote channel platform w).2
  = (requests w ++ [resolved_url channel subdir])%list
  ∧ RepoData__instance (fetch_repodata remote channel platform w).2
    = RepoData__instance w
  ∧ heap (fetch_repodata remote channel platform w).2 = heap w
  ∧ files (fetch_repodata remote channel platform w).2 = files w
  ∧ ∀ repo,
      (fetch_repodata remote channel platform w).1 = Ok repo
      ↔ ∃ resp,
          remote (length (requests w)) (resolved_url channel subdir) = Ok resp
          ∧ status_code resp = 200
          ∧ json resp = Ok repo.
Proof.
  intros Hp.
  unfold fetch_repodata, bindM, lift, requests_get, raise.
  rewrite Hp. simpl. fold (resolved_url channel subdir).
  destruct (remote _ _) as [resp|e]; simpl.
  - case_bool_decide as Hs; simpl.
    + repeat split; try done.
      * intros H. by exists resp.
      * by intros (resp' & [= <-] & _ & Hj).
    + repeat split; try done. by intros (resp' & [= <-] & Hs' & _).
  - repeat split; try done. by intros (resp' & [=] & _).
Qed.

Lemma fetch_repodata_one_request_witness :
  requests (fetch_repodata remote_ok "defaults" "osx" (start ∅)).2
  = ([] ++ ["https://repo.anaconda.com/pkgs/main/osx-64/repodata.json"])%list
  ∧ RepoData__instance (fetch_repodata remote_ok "defaults" "osx" (start ∅)).2
    = None
  ∧ heap (fetch_repodata remote_ok "defaults" "osx" (start ∅)).2 = []
  ∧ files (fetch_repodata remote_ok "defaults" "osx" (start ∅)).2 = ∅
  ∧ ∀ repo,
      (fetch_repodata remote_ok "defaults" "osx" (start ∅)).1 = Ok repo
      ↔ ∃ resp,
          remote_ok 0 "https://repo.anaconda.com/pkgs/main/osx-64/repodata.json"
          = Ok resp
          ∧ status_code resp = 200
          ∧ json resp = Ok repo.
Proof.
  apply (fetch_repodata_one_request remote_ok "defaults" "osx" "osx-64" (start ∅)).
  reflexivity.
Defined.

(** X7: the keys that the loop body reads.  When the request gets a 200
    and the body parses, the loop body raises [KeyError] for the first of
    [packages], [info] and, within [info], [subdir] that the document
    does not have; a body that does not parse raises the parser's error. *)
Theorem load_pair_missing_keys
    (remote : nat → string → result Response)
    (channel platform subdir : string) (resp : Response) (w : World) :
  platform2subdir platform = Ok subdir →
  remote (length (requests w)) (resolved_url channel subdir) = Ok resp →
  status_code resp = 200 →
  (∀ e, json resp = Err e →
     (load_pair remote channel platform w).1 = Err e)
  ∧ (∀ repo, json resp = Ok repo → packages repo = None →
       (load_pair remote channel platform w).1 = Err (KeyError "packages"))
  ∧ (∀ repo pk, json resp = Ok repo → packages repo = Some pk →
       info repo = None →
       (load_pair remote channel platform w).1 = Err (KeyError "info"))
  ∧ (∀ repo pk i, json resp = Ok repo → packages repo = Some pk →
       info repo = Some i → i !! "subdir" = None →
       (load_pair remote channel platform w).1 = Err (KeyError "subdir")).
Proof.
  intros Hp Hr Hs.
  assert (Hfetch : ∀ w0, requests w0 = requests w →
            (fetch_repodata remote channel platform w0).1 = json resp).
  { intros w0 Hw0.
    unfold fetch_repodata, bindM, lift, requests_get, raise.
    rewrite Hp. simpl. fold (resolved_url channel subdir).
    rewrite Hw0, Hr. simpl. by rewrite bool_decide_eq_true_2. }
  assert (Hload : (load_pair remote channel platform w).1
    = match json resp with
      | Ok repo =>
          match packages repo with
          | Some pk =>
              match info repo with
              | Some i =>
                  match i !! "subdir" with
                  | Some s =>
                      Ok (setitem (setitem (setitem (from_dict pk _load_columns)
                            "channel" (CStr channel)) "platform" (CStr platform))
                            "subdir" s)
                  | None => Err (KeyError "subdir")
                  end
              | None => Err (KeyError "info")
              end
          | None => Err (KeyError "packages")
          end
      | Err e => Err e
      end).
  { unfold load_pair, bindM at 1, print. unfold bindM at 1.
    match goal with
    | |- context [fetch_repodata remote channel platform ?w0] =>
        specialize (Hfetch w0 eq_refl);
        destruct (fetch_repodata remote channel platform w0) as [r w1]
    end.
    simpl in Hfetch. rewrite Hfetch.
    destruct (json resp) as [repo|]; [|done].
    unfold bindM, lift, getitem, ret.
    destruct (packages repo); simpl; [|done].
    destruct (info repo) as [i|]; simpl; [|done].
    by destruct (i !! "subdir"). }
  rewrite Hload. repeat split.
  - by intros e ->.
  - by intros repo -> ->.
  - by intros repo pk -> -> ->.
  - by intros repo pk i -> -> -> ->.
Qed.

(** A 200 whose document has no [info]. *)
Lemma load_pair_missing_keys_witness :
  (load_pair (λ _ _, Ok (mkResponse 200 "OK" (Ok (mkRepodata None (Some [])))))
     "bioconda" "linux" (start ∅)).1
  = Err (KeyError "info").
Proof.
  destruct (load_pair_missing_keys
              (λ _ _, Ok (mkResponse 200 "OK" (Ok (mkRepodata None (Some [])))))
              "bioconda" "linux" "linux-64"
              (mkResponse 200 "OK" (Ok (mkRepodata None (Some []))))
              (start ∅) eq_refl eq_refl eq_refl) as (_ & _ & H & _).
  by apply (H (mkRepodata None (Some [])) []).
Defined.

(** ** The requests of a build *)

Section BuildRequests.

Variable remote : nat → string → result Response.
Variable infer_column : list string → list cell.

Lemma sends_prefix_silent {A} (m : M A) :
  (∀ w, requests (m w).2 = requests w) → sends_prefix_of [] m.
Proof.
  intros H w. exists []. by rewrite H, app_nil_r.
Qed.

Lemma sends_prefix_bind {A B} us1 us2 (m : M A) (k : A → M B) :
  sends_prefix_of us1 m →
  (∀ a, sends_prefix_of us2 (k a)) →
  sends_prefix_of (us1 ++ us2)%list (bindM m k).
Proof.
  intros Hm Hk w. unfold bindM.
  destruct (Hm w) as (s1 & Hreq & Hpre & Hall).
  destruct (m w) as [[a|e] w1]; simpl in *.
  - rewrite (Hall eq_refl) in Hreq. clear Hpre Hall.
    destruct (Hk a w1) as (s2 & Hreq2 & Hpre2 & Hall2).
    exists (us1 ++ s2)%list. split; [|split].
    + by rewrite Hreq2, Hreq, app_assoc.
    + by apply prefix_app.
    + intros Hok. by rewrite (Hall2 Hok).
  - exists s1. split; [done|]. split; [by apply prefix_app_r|done].
Qed.

Lemma sends_prefix_for_each {A B} (us : A → list string) (l : list A)
    (f : A → M B) :
  (∀ a, sends_prefix_of (us a) (f a)) →
  sends_prefix_of (l ≫= us) (for_each l f).
Proof.
  intros Hf. induction l as [|a l IH]; csimpl.
  - by apply sends_prefix_silent.
  - apply sends_prefix_bind; [done|]. intros b.
    rewrite <- (app_nil_r (l ≫= us)).
    apply sends_prefix_bind; [done|]. intros bs.
    by apply sends_prefix_silent.
Qed.

Lemma sends_prefix_load_pair channel platform :
  platform ∈ platforms →
  sends_prefix_of [resolved_url channel (subdir_of platform)]
    (load_pair remote channel platform).
Proof.
  intros Hp w. exists [resolved_url channel (subdir_of platform)].
  split; [|done]. apply load_pair_requests.
  unfold platforms in Hp. unfold subdir_of.
  repeat (apply elem_of_cons in Hp as [->|Hp]; [done|]).
  by apply elem_of_nil in Hp.
Qed.

Lemma sends_prefix_for_each_in {A B} (us : A → list string) (l : list A)
    (f : A → M B) :
  (∀ a, a ∈ l → sends_prefix_of (us a) (f a)) →
  sends_prefix_of (l ≫= us) (for_each l f).
Proof.
  intros Hf. induction l as [|a l IH]; csimpl.
  - by apply sends_prefix_silent.
  - apply sends_prefix_bind; [apply Hf, list_elem_of_here|]. intros b.
    rewrite <- (app_nil_r (l ≫= us)).
    apply sends_prefix_bind.
    + apply IH. intros a' Ha'. by apply Hf, list_elem_of_further.
    + intros bs. by apply sends_prefix_silent.
Qed.

Lemma sends_prefix_load_all : sends_prefix_of build_urls (load_all remote).
Proof.
  unfold load_all, build_urls. rewrite <- (app_nil_r (channels ≫= _)).
  apply sends_prefix_bind; [|intros dfs; by apply sends_prefix_silent].
  apply sends_prefix_for_each. intros channel.
  apply sends_prefix_for_each_in. intros platform Hp.
  by apply sends_prefix_load_pair.
Qed.

(** X8: whatever the remote side answers and whatever the process has
    done before, a call [RepoData()] sends a first part of the nine URLs
    of the build, in the order of the loops over channels and platforms,
    and no other request; a call that returns an instance has sent all
    nine. *)
Theorem construction_requests (w : World) :
  ∃ sent,
    requests (RepoData remote infer_column None w).2 = (requests w ++ sent)%list
    ∧ sent `prefix_of` build_urls
    ∧ length build_urls = 9%nat
    ∧ (is_ok (RepoData remote infer_column None w).1 = true → sent = build_urls).
Proof.
  assert (H : sends_prefix_of build_urls (RepoData remote infer_column None)).
  { unfold RepoData.
    change build_urls with ([] ++ build_urls)%list.
    apply sends_prefix_bind.
    { apply sends_prefix_silent. intros w0. unfold RepoData__new__.
      by destruct (RepoData__instance w0). }
    intros self. rewrite <- (app_nil_r build_urls).
    apply sends_prefix_bind; [|intros _; by apply sends_prefix_silent].
    intros w0. rewrite init_no_cache. revert w0.
    rewrite <- (app_nil_r build_urls).
    apply sends_prefix_bind; [apply sends_prefix_load_all|].
    intros dfs. change (@nil string) with ([] ++ @nil string)%list.
    apply sends_prefix_bind; [by apply sends_prefix_silent|]. intros d.
    change (@nil string) with ([] ++ @nil string)%list.
    apply sends_prefix_bind; [by apply sends_prefix_silent|].
    intros _. by apply sends_prefix_silent. }
  destruct (H w) as (sent & Hreq & Hpre & Hall).
  exists sent. done.
Qed.

End BuildRequests.

(** ** The table of a build *)

Lemma reindex_same_columns d :
  table_shaped d → reindex_columns table_columns d = rows d.
Proof.
  intros [Hc Hwf]. unfold reindex_columns. rewrite Hc.
  rewrite <- (list_fmap_id (rows d)) at 2.
  apply Forall_fmap_ext_1. unfold well_formed in Hwf. rewrite Hc in Hwf.
  eapply Forall_impl; [exact Hwf|]. intros [l cells] Hlen. simpl in *.
  do 8 (destruct cells as [|? cells]; try discriminate Hlen). reflexivity.
Qed.

Lemma reindex_all_same_columns (l : list DataFrame) :
  Forall table_shaped l → l ≫= reindex_columns table_columns = l ≫= rows.
Proof.
  induction 1 as [|d1 ds Hd1 _ IH]; [done|].
  csimpl. by rewrite IH, reindex_same_columns.
Qed.

Lemma pd_concat_rows dfs d :
  Forall table_shaped dfs → pd_concat dfs = Ok d → rows d = dfs ≫= rows.
Proof.
  intros H. unfold pd_concat. destruct dfs as [|d0 dfs]; [done|].
  intros [= <-]. cbn [rows].
  assert (Hu : union_columns (d0 :: dfs) = table_columns).
  { by destruct (pd_concat_shape (d0 :: dfs) _ H eq_refl) as [Hu _]. }
  rewrite Hu. by apply (reindex_all_same_columns (d0 :: dfs)).
Qed.

Section BuiltRows.

Variable remote : nat → string → result Response.
Variable infer_column : list string → list cell.

Lemma for_each_Forall_in {A B} (P : B → Prop) (l : list A) (f : A → M B) :
  (∀ a w b w', a ∈ l → f a w = (Ok b, w') → P b) →
  ∀ w bs w', for_each l f w = (Ok bs, w') → Forall P bs.
Proof.
  induction l as [|a l IH]; intros Hf w bs w'; simpl.
  - unfold ret. by intros [= <- _].
  - unfold bindM at 1. destruct (f a w) as [[b|] w1] eqn:E; [|done].
    unfold bindM. destruct (for_each l f w1) as [[bs'|] w2] eqn:E'; [|done].
    unfold ret. intros [= <- _]. constructor.
    + eapply Hf; [apply list_elem_of_here|exact E].
    + eapply IH; [|exact E']. intros a' w0 b' w0' Ha'.
      by apply Hf, list_elem_of_further.
Qed.

Lemma load_pair_stamped channel platform w d w1 :
  channel ∈ channels → platform ∈ platforms →
  load_pair remote channel platform w = (Ok d, w1) →
  table_shaped d ∧ rows_stamped d.
Proof.
  intros Hc Hp E. split; [by eapply load_pair_shape|].
  revert E.
  unfold load_pair, fetch_repodata, bindM, print, lift, requests_get, raise.
  simpl. destruct (platform2subdir platform); simpl; [|done].
  destruct (remote _ _) as [resp|]; simpl; [|done].
  case_bool_decide; simpl; [|done].
  destruct (json resp) as [repo|]; simpl; [|done].
  destruct (packages repo) as [pk|]; simpl; [|done].
  destruct (info repo) as [i|]; simpl; [|done].
  destruct (i !! "subdir") as [s|]; simpl; [|done].
  unfold ret. intros [= <- _]. rewrite stamped_frame.
  intros r [kb [-> _]]%list_elem_of_fmap.
  exists channel, platform. split; [done|]. split; [done|].
  split; apply stamped_row_cells.
Qed.

Lemma load_all_stamped w dfs w1 :
  load_all remote w = (Ok dfs, w1) →
  Forall (λ d, table_shaped d ∧ rows_stamped d) dfs.
Proof.
  unfold load_all, bindM.
  destruct (for_each channels _ w) as [[dss|] w'] eqn:E; [|done].
  unfold ret. intros [= <- _]. apply Forall_concat.
  eapply (for_each_Forall_in
            (Forall (λ d, table_shaped d ∧ rows_stamped d))); [|exact E].
  intros channel w0 ds w0' Hc E0.
  eapply (for_each_Forall_in (λ d, table_shaped d ∧ rows_stamped d));
    [|exact E0].
  intros platform w2 d w2' Hp. by apply load_pair_stamped.
Qed.

(** X9: in a process whose singleton slot, if set, refers to an object,
    a call [RepoData()] that returns leaves the returned object in the
    slot with a table whose columns are the four loaded fields followed
    by [channel], [platform] and [subdir] (the columns that the class
    lists, in another order), whose rows all have one cell per column,
    and in which every row carries one of the configured channels and one
    of the configured platforms. *)
Theorem built_table (w : World) (o : nat) (w1 : World) :
  slot_ok w →
  RepoData remote infer_column None w = (Ok o, w1) →
  ∃ d,
    heap w1 !! o = Some (mkInstance (Some d))
    ∧ RepoData__instance w1 = Some o
    ∧ columns d = table_columns
    ∧ columns d ≡ₚ RepoData_columns
    ∧ well_formed d
    ∧ rows_stamped d.
Proof.
  intros Hslot. rewrite RepoData_unfold. unfold bindM at 1.
  destruct (RepoData__init__ remote infer_column (the_instance w) None
              (RepoData__new__ w).2) as [[[]|e] w'] eqn:E; [|done].
  unfold ret. intros [= <- <-].
  assert (Hlen : (the_instance w < length (heap (RepoData__new__ w).2))%nat).
  { unfold the_instance, RepoData__new__, slot_ok in *.
    destruct (RepoData__instance w) as [o|]; simpl.
    - by apply Hslot.
    - rewrite length_app. simpl. lia. }
  destruct (new_returns_the_instance w) as (_ & Hs & _ & _).
  revert E. rewrite init_no_cache. unfold bindM at 1.
  pose proof (quiet_load_all remote (RepoData__new__ w).2) as Hq.
  destruct (load_all remote (RepoData__new__ w).2) as [[dfs|] w2] eqn:El;
    [|done].
  simpl in Hq. destruct Hq as (Hs2 & Hh2 & _).
  unfold bindM, lift, set_df, ret.
  destruct (pd_concat dfs) as [d|] eqn:Ed; simpl; [|done].
  intros [= <-]. exists d. simpl.
  pose proof (load_all_stamped _ _ _ El) as Hall.
  assert (Hshape : Forall table_shaped dfs)
    by (eapply Forall_impl; [exact Hall|]; by intros ? [? _]).
  destruct (pd_concat_shape _ _ Hshape Ed) as [Hc Hwf].
  split; [rewrite Hh2; by apply list_lookup_insert_eq|].
  split; [by rewrite Hs2|]. split; [done|].
  split.
  { rewrite Hc. unfold table_columns, RepoData_columns, _load_columns. simpl.
    do 5 f_equiv. apply Permutation_swap. }
  split; [done|].
  intros r Hr. rewrite (pd_concat_rows _ _ Hshape Ed) in Hr.
  apply list_elem_of_bind in Hr as (d0 & Hr & Hd0).
  rewrite Forall_forall in Hall. destruct (Hall _ Hd0) as [_ Hst].
  by apply Hst.
Qed.

End BuiltRows.

(** A first call on the sample remote side. *)
Lemma built_table_witness :
  ∃ d,
    heap sample_first_call !! 0%nat = Some (mkInstance (Some d))
    ∧ RepoData__instance sample_first_call = Some 0%nat
    ∧ columns d = table_columns
    ∧ columns d ≡ₚ RepoData_columns
    ∧ well_formed d
    ∧ rows_stamped d.
Proof.
  apply (built_table remote_ok infer_simple (start ∅) 0 sample_first_call).
  - intros o Ho. discriminate Ho.
  - vm_compute. reflexivity.
Defined.

(** ** What construction leaves alone *)

Section ConstructionFrames.

Variable remote : nat → string → result Response.
Variable infer_column : list string → list cell.


(** X11: the constructor never reads or writes a file.  A call with an
    argument raises [TypeError] in [__new__] and leaves the process as it
    was, so that no cache path ever reaches [__init__]; a call without
    argument leaves every file as it is. *)
Theorem constructor_leaves_files (args : option (option string)) (w : World) :
  files (RepoData remote infer_column args w).2 = files w
  ∧ (∀ c, RepoData remote infer_column (Some c) w
          = (Err (TypeError
                    "__new__() takes 1 positional argument but 2 were given"),
             w)).
Proof.
  split; [|done]. destruct args as [c|]; [done|].
  rewrite RepoData_unfold. unfold bindM at 1.
  destruct (new_returns_the_instance w) as (_ & _ & Hf & _).
  destruct (RepoData__init__ remote infer_column (the_instance w) None
              (RepoData__new__ w).2) as [[[]|e] w1] eqn:E; simpl.
  - revert E. rewrite init_no_cache. unfold bindM at 1.
    pose proof (quiet_load_all remote (RepoData__new__ w).2) as Hq.
    destruct (load_all remote (RepoData__new__ w).2) as [[dfs|] w2]; [|done].
    simpl in Hq. destruct Hq as (_ & _ & Hf2).
    unfold bindM, lift, set_df, ret.
    destruct (pd_concat dfs); simpl; [|done].
    intros [= <-]. simpl. by rewrite Hf2.
  - destruct (init_failure_frame _ _ _ _ _ _ E) as (_ & _ & Hf1).
    by rewrite Hf1.
Qed.

Lemma for_each_length {A B} (l : list A) (f : A → M B) w bs w' :
  for_each l f w = (Ok bs, w') → length bs = length l.
Proof.
  revert w bs w'. induction l as [|a l IH]; intros w bs w'; simpl.
  - unfold ret. by intros [= <- _].
  - unfold bindM at 1. destruct (f a w) as [[b|] w1]; [|done].
    unfold bindM. destruct (for_each l f w1) as [[bs'|] w2] eqn:E'; [|done].
    unfold ret. intros [= <- _]. simpl. f_equal. by eapply IH.
Qed.

Lemma load_all_nonempty w dfs w' :
  load_all remote w = (Ok dfs, w') → length dfs = 9%nat.
Proof.
  unfold load_all, bindM.
  destruct (for_each channels _ w) as [[dss|] w1] eqn:E; [|done].
  unfold ret. intros [= <- _].
  pose proof (for_each_length _ _ _ _ _ E) as Hlen.
  assert (Hall : Forall (λ ds : list DataFrame, length ds = 3%nat) dss).
  { eapply (for_each_Forall (λ ds : list DataFrame, length ds = 3%nat));
      [|exact E].
    intros channel w0 ds w0' E0. by apply for_each_length in E0. }
  simpl in Hlen.
  do 4 (destruct dss as [|? dss]; try discriminate Hlen).
  repeat (apply Forall_cons in Hall as [? Hall]).
  simpl. rewrite !length_app. simpl. lia.
Qed.

(** X13: a call [RepoData()] succeeds exactly when the loops over the
    channels and platforms do.  An error raised in the loops is the
    outcome of the call, with the process as the loops left it; when the
    loops end, the call returns the instance. *)
Theorem construction_follows_loads (w : World) :
  (∀ e w', load_all remote (RepoData__new__ w).2 = (Err e, w') →
     RepoData remote infer_column None w = (Err e, w'))
  ∧ (∀ dfs w', load_all remote (RepoData__new__ w).2 = (Ok dfs, w') →
       (RepoData remote infer_column None w).1 = Ok (the_instance w)).
Proof.
  split.
  - intros e w' El. rewrite RepoData_unfold. unfold bindM at 1.
    rewrite init_no_cache. unfold bindM at 1. by rewrite El.
  - intros dfs w' El. rewrite RepoData_unfold. unfold bindM at 1.
    rewrite init_no_cache. unfold bindM at 1. rewrite El.
    pose proof (load_all_nonempty _ _ _ El) as Hlen.
    unfold bindM, lift, set_df, ret, pd_concat.
    destruct dfs as [|d0 dfs]; [discriminate Hlen|]. done.
Qed.

End ConstructionFrames.

(** X12: [__new__] is idempotent: called again, it returns the same
    object and changes nothing.  It makes at most one object, after the
    objects that exist, and touches neither files nor requests. *)
Theorem new_is_idempotent (w : World) :
  RepoData__new__ (RepoData__new__ w).2 = RepoData__new__ w
  ∧ heap w `prefix_of` heap (RepoData__new__ w).2
  ∧ (length (heap (RepoData__new__ w).2) ≤ S (length (heap w)))%nat
  ∧ files (RepoData__new__ w).2 = files w
  ∧ requests (RepoData__new__ w).2 = requests w.
Proof.
  unfold RepoData__new__.
  destruct (RepoData__instance w) as [o|] eqn:E; simpl.
  - rewrite E. repeat split; [done|lia].
  - repeat split.
    + by apply prefix_app_r.
    + rewrite length_app. simpl. lia.
Qed.


(** The sample remote side, and one that answers 404. *)
Lemma construction_follows_loads_witness :
  RepoData remote_404 infer_simple None (start ∅)
  = (Err (HTTPError (http_error_message not_found first_url)),
     (load_all remote_404 (RepoData__new__ (start ∅)).2).2)
  ∧ (RepoData remote_ok infer_simple None (start ∅)).1 = Ok 0%nat.
Proof.
  destruct (construction_follows_loads remote_404 infer_simple (start ∅))
    as [Herr _].
  destruct (construction_follows_loads remote_ok infer_simple (start ∅))
    as [_ Hok].
  split.
  - apply Herr. vm_compute. reflexivity.
  - eapply Hok. vm_compute. reflexivity.
Defined.

(** ** Queries on a table read from the cache *)






(** ** The platform of the host *)

(** X15: the platform that [native_platform] returns is always one that
    [platform2subdir] resolves, to that platform's 64-bit subdirectory;
    on a host whose [sys.platform] starts with neither [linux] nor
    [darwin] it raises [ValueError], and so does [get_package_data] when
    asked for the native platform. *)
Theorem native_platform_supported (sys_platform : string) :
  (∀ p, native_platform sys_platform = Ok p →
     p ∈ platforms ∧ platform2subdir p = Ok (p ++ "-64"))
  ∧ (String.prefix "linux" sys_platform = false →
     String.prefix "darwin" sys_platform = false →
     native_platform sys_platform
     = Err (ValueError "Running on unsupported platform")
     ∧ ∀ df key channels name version build_number platform,
         get_package_data sys_platform df key channels name version
           build_number platform true
         = Err (ValueError "Running on unsupported platform")).
Proof.
  unfold get_package_data, native_platform. split.
  - intros p. destruct (String.prefix "linux" sys_platform);
      [|destruct (String.prefix "darwin" sys_platform)];
      intros [= <-]; (split; [unfold platforms; set_solver|done]).
  - by intros -> ->.
Qed.

Lemma native_platform_supported_witness :
  native_platform "win32" = Err (ValueError "Running on unsupported platform")
  ∧ (∀ p, native_platform "darwin" = Ok p →
       p ∈ platforms ∧ platform2subdir p = Ok (p ++ "-64")).
Proof.
  destruct (native_platform_supported "win32") as [_ Hwin].
  destruct (native_platform_supported "darwin") as [Hmac _].
  split; [|exact Hmac].
  by destruct (Hwin eq_refl eq_refl) as [H _].
Defined.
